(** * The HTTP client of apify-client-js: option normalisation and the
      retried request.

    The development follows [HttpClient] of the client: the option bag and
    its normaliser [_validateAndNormalizeOptions], the single attempt
    [makeRequest] with its effects on the shared statistics object, and the
    calls [_call] and [call] that drive it.

    JavaScript values are embedded as the inductive [JsVal]; an option bag
    is a finite map from property names to values, so that object spread is
    map union and insertion.  A string is the UTF-8 text of the JavaScript
    string. *)

From Stdlib Require Import ZArith Ascii String DecimalString.
From stdpp Require Import base option list strings gmap.

Local Open Scope Z_scope.
Local Open Scope string_scope.

Set Warnings "-register-all".

(** ** JavaScript values *)

Inductive JsVal : Type :=
| JUndefined
| JNull
| JBool (b : bool)
| JNum (n : Z)
| JStr (s : string)
| JArr (items : list JsVal)
| JObj (fields : list (string * JsVal)).

(** Truthiness, as used by [&&], [!] and the conditional operator. *)
Definition truthy (v : JsVal) : bool :=
  match v with
  | JUndefined | JNull => false
  | JBool b => b
  | JNum n => negb (Z.eqb n 0)
  | JStr s => negb (String.eqb s "")
  | JArr _ | JObj _ => true
  end.

(** The [typeof] operator. *)
Definition typeof (v : JsVal) : string :=
  match v with
  | JUndefined => "undefined"
  | JBool _ => "boolean"
  | JNum _ => "number"
  | JStr _ => "string"
  | JNull | JArr _ | JObj _ => "object"
  end.

(** An error object of the runtime or of the transport library: only its
    [message] is read by the client. *)
Record JsError : Type := mkJsError {
  err_name : string;
  err_message : string;
}.

(** ** Strings *)

Definition dquote : string := String "034"%char EmptyString.

Definition upper_ascii (c : ascii) : ascii :=
  let n := nat_of_ascii c in
  if ((97 <=? n)%nat && (n <=? 122)%nat)%bool then ascii_of_nat (n - 32) else c.

(** Whether a byte has the given code. *)
Definition is_byte (c : ascii) (n : nat) : bool := Nat.eqb (nat_of_ascii c) n.

(** The upper-case forms of the ligatures U+FB00 to U+FB06, whose UTF-8
    text is EF AC followed by a byte from 80 to 86. *)
Definition upper_ligature (c : ascii) : option string :=
  if is_byte c 128 then Some "FF"
  else if is_byte c 129 then Some "FI"
  else if is_byte c 130 then Some "FL"
  else if is_byte c 131 then Some "FFI"
  else if is_byte c 132 then Some "FFL"
  else if is_byte c 133 then Some "ST"
  else if is_byte c 134 then Some "ST"
  else None.

(** [s.toUpperCase()].  The ASCII letters, and the characters whose
    upper-case form consists of ASCII letters, are mapped as the runtime
    maps them: the dotless i (C4 B1) to I, the long s (C5 BF) to S, the sharp
    s (C3 9F) to SS, and the ligatures U+FB00 to U+FB06 to FF, FI, FL, FFI,
    FFL, ST and ST.  Every other character has an upper-case form with a
    character outside ASCII in it and is left as it is: this changes neither
    whether the result is one of the allowed method names, which are ASCII,
    nor the result when it is one, and the client uses the result for
    nothing else. *)
Fixpoint toUpperCase (s : string) : string :=
  match s with
  | EmptyString => EmptyString
  | String c1 rest1 =>
    match rest1 with
    | EmptyString => String (upper_ascii c1) EmptyString
    | String c2 rest2 =>
      if (is_byte c1 196 && is_byte c2 177)%bool then String "I" (toUpperCase rest2)
      else if (is_byte c1 197 && is_byte c2 191)%bool then
        String "S" (toUpperCase rest2)
      else if (is_byte c1 195 && is_byte c2 159)%bool then
        String "S" (String "S" (toUpperCase rest2))
      else
        match rest2 with
        | EmptyString => String (upper_ascii c1) (toUpperCase rest1)
        | String c3 rest3 =>
          match (if (is_byte c1 239 && is_byte c2 172)%bool
                 then upper_ligature c3 else None) with
          | Some letters => letters +:+ toUpperCase rest3
          | None => String (upper_ascii c1) (toUpperCase rest1)
          end
        end
    end
  end.

(** [s.substr(-1)]: the last character of [s], empty for the empty string. *)
Fixpoint substr_last (s : string) : string :=
  match s with
  | EmptyString => EmptyString
  | String c EmptyString => String c EmptyString
  | String _ rest => substr_last rest
  end.

(** [s.slice(0, -1)]: [s] without its last character. *)
Fixpoint slice_init (s : string) : string :=
  match s with
  | EmptyString => EmptyString
  | String _ EmptyString => EmptyString
  | String c rest => String c (slice_init rest)
  end.

(** [xs.join(sep)] on strings. *)
Fixpoint join (sep : string) (xs : list string) : string :=
  match xs with
  | [] => ""
  | [x] => x
  | x :: rest => x +:+ sep +:+ join sep rest
  end.

(** Decimal rendering of a number inside a template literal. *)
Definition string_of_nat (n : nat) : string :=
  NilEmpty.string_of_uint (Nat.to_uint n).

(** ** Errors of the client *)

(** Modelled from the spec: the classification tags that the HTTP client
    imports from [./apify_error] (an invalid-parameter and a request-failed
    tag, each in a v1 and a v2 variant).  The revision of [apify_error.js]
    in the tree exports one tag per kind only, so the four names are taken
    as an enumeration; [ServerErrorType] is a tag read from a response
    body. *)
Inductive ErrorType : Type :=
| INVALID_PARAMETER_ERROR_TYPE_V1
| INVALID_PARAMETER_ERROR_TYPE_V2
| REQUEST_FAILED_ERROR_TYPE_V1
| REQUEST_FAILED_ERROR_TYPE_V2
| ServerErrorType (tag : string).

(** The value of the local variable [statusCode] of an attempt. *)
Inductive Status : Type :=
| StUndefined
| StNull
| StNum (code : Z).

(** The [error] entry of the failure details:
    [error && error.message ? error.message : error]. *)
Inductive ErrorEntry : Type :=
| EntryUndefined
| EntryMessage (msg : string)
| EntryError (e : JsError).

Inductive Details : Type :=
| NoDetails
| ResponseDetails (statusCode : Status) (url method : JsVal)
| FailureDetails (url method params : JsVal) (hasBody : bool)
    (error : ErrorEntry) (statusCode : Status) (iteration : nat).

(** The error class that the HTTP client imports as [ApifyClientError]: the
    default export of [apify_error.js], whose constructor takes a type, a
    message and details and stores them (a further argument of a call is
    not stored).  The name is the same for every error and the stack is
    left out. *)
Record ApifyClientError : Type := mkApifyClientError {
  type : ErrorType;
  message : string;
  details : Details;
}.

(** ** Constants of the client *)

Definition RATE_LIMIT_EXCEEDED_STATUS_CODE : Z := 429.
Definition EXP_BACKOFF_MILLIS : Z := 500.
Definition EXP_BACKOFF_MAX_REPEATS : Z := 8.
Definition ALLOWED_HTTP_METHODS : list string :=
  ["GET"; "DELETE"; "HEAD"; "POST"; "PUT"; "PATCH"].

(** ** Option bags *)

Abbreviation Options := (gmap string JsVal).

(** Property read: an absent property reads as [undefined]. *)
Definition get (k : string) (o : Options) : JsVal :=
  default JUndefined (o !! k).

(** Destructuring with a default: the default is taken when the property
    reads as [undefined]. *)
Definition get_or (k : string) (d : JsVal) (o : Options) : JsVal :=
  match get k o with
  | JUndefined => d
  | v => v
  end.

(** [{ ...a, ...b }]: the properties of [b] override those of [a]. *)
Definition spread (a b : Options) : Options := b ∪ a.

(** [xs.includes(x)] for a string [x]. *)
Definition includes_str (xs : list string) (x : string) : bool :=
  existsb (String.eqb x) xs.

(** ** Further string and object operations *)

Definition lower_ascii (c : ascii) : ascii :=
  let n := nat_of_ascii c in
  if ((65 <=? n)%nat && (n <=? 90)%nat)%bool then ascii_of_nat (n + 32) else c.

Fixpoint toLowerCase (s : string) : string :=
  match s with
  | EmptyString => EmptyString
  | String c rest => String (lower_ascii c) (toLowerCase rest)
  end.

(** Decimal rendering of an integer. *)
Definition string_of_Z (n : Z) : string :=
  if Z.ltb n 0 then "-" +:+ string_of_nat (Z.to_nat (- n))
  else string_of_nat (Z.to_nat n).

(** The string that a value contributes to a template literal.  Numbers are
    integers and are rendered in decimal. *)
Fixpoint template_of (v : JsVal) : string :=
  match v with
  | JUndefined => "undefined"
  | JNull => "null"
  | JBool true => "true"
  | JBool false => "false"
  | JNum n => string_of_Z n
  | JStr s => s
  | JArr items =>
    join "," (map (fun x => match x with
                            | JUndefined | JNull => ""
                            | _ => template_of x
                            end) items)
  | JObj _ => "[object Object]"
  end.

(** The own enumerable properties that [{ ...v }] copies from a value:
    the fields of an object, the indexed elements of an array, the indexed
    characters of a string, and nothing for the other values. *)
Definition own_props (v : JsVal) : gmap string JsVal :=
  match v with
  | JObj fields => list_to_map fields
  | JArr items => list_to_map (imap (fun i x => (string_of_nat i, x)) items)
  | JStr s =>
    list_to_map (imap (fun i c => (string_of_nat i, JStr (String c EmptyString)))
                   (list_ascii_of_string s))
  | _ => ∅
  end.

(** [s.replace(a, b)] for one-character strings [a] and [b]: the first
    occurrence of the character is replaced. *)
Fixpoint replace_first (a b : ascii) (s : string) : string :=
  match s with
  | EmptyString => EmptyString
  | String c rest =>
    if Ascii.eqb c a then String b rest else String c (replace_first a b rest)
  end.

Module HttpClient.

(** *** [_validateAndNormalizeOptions] *)

Definition _validateAndNormalizeOptions (options : Options)
  : ApifyClientError + Options :=
  let isApiV1 := get "isApiV1" options in
  let baseUrl := get "baseUrl" options in
  let method := get "method" options in
  let authRequired := get "authRequired" options in
  let token := get "token" options in
  let expBackoffMillis := get_or "expBackoffMillis" (JNum EXP_BACKOFF_MILLIS) options in
  let expBackoffMaxRepeats :=
    get_or "expBackoffMaxRepeats" (JNum EXP_BACKOFF_MAX_REPEATS) options in
  let retryOnStatusCodes :=
    get_or "retryOnStatusCodes" (JArr [JNum RATE_LIMIT_EXCEEDED_STATUS_CODE]) options in
  let INVALID_PARAMETER_ERROR_TYPE :=
    if truthy isApiV1 then INVALID_PARAMETER_ERROR_TYPE_V1
    else INVALID_PARAMETER_ERROR_TYPE_V2 in
  match baseUrl with
  | JStr baseUrl =>
    let baseUrl :=
      if String.eqb (substr_last baseUrl) "/" then slice_init baseUrl else baseUrl in
    match method with
    | JStr method0 =>
      let method := toUpperCase method0 in
      if negb (includes_str ALLOWED_HTTP_METHODS method) then
        inl (mkApifyClientError INVALID_PARAMETER_ERROR_TYPE_V2
               ("The " +:+ dquote +:+ "options.method" +:+ dquote
                +:+ " parameter is invalid. "
                +:+ "Expected one of " +:+ join ", " ALLOWED_HTTP_METHODS
                +:+ " but got: " +:+ method0)
               NoDetails)
      else if (truthy authRequired
               && negb (String.eqb (typeof token) "string"))%bool then
        inl (mkApifyClientError INVALID_PARAMETER_ERROR_TYPE
               ("The " +:+ dquote +:+ "options.token" +:+ dquote
                +:+ " parameter of type string is required.")
               NoDetails)
      else
        inr (<["retryOnStatusCodes" := retryOnStatusCodes]>
             (<["expBackoffMaxRepeats" := expBackoffMaxRepeats]>
              (<["expBackoffMillis" := expBackoffMillis]>
               (<["method" := JStr method]>
                (<["baseUrl" := JStr baseUrl]> options)))))
    | _ =>
      inl (mkApifyClientError INVALID_PARAMETER_ERROR_TYPE
             ("The " +:+ dquote +:+ "options.method" +:+ dquote
              +:+ " parameter of type string is required.")
             NoDetails)
    end
  | _ =>
    inl (mkApifyClientError INVALID_PARAMETER_ERROR_TYPE
           ("The " +:+ dquote +:+ "options.baseUrl" +:+ dquote
            +:+ " parameter of type string is required.")
           NoDetails)
  end.


(** *** The shared statistics object and the transport *)

(** [this.stats]: the counters of calls and of HTTP requests, and the
    array [rateLimitErrors], indexed by attempt (slot [k - 1] belongs to the
    attempt of ordinal [k]). *)
Record Stats : Type := mkStats {
  calls : Z;
  requests : Z;
  rateLimitErrors : gmap nat JsVal;
}.

(** [axiosResponse.request.res], to which the client adds [body]. *)
Record IncomingMessage : Type := mkIncomingMessage {
  statusCode : option Z;
  headers : JsVal;
  body : JsVal;
}.

(** What [axios.request(axiosConfig)] settles to.  With
    [validateStatus: null] no status code makes it reject, and with the
    identity [transformResponse] the data is the unparsed text. *)
Inductive AxiosOutcome : Type :=
| AxiosRejected (err : JsError)
| AxiosResolved (res : option IncomingMessage) (data : string).

(** The transport, as a script: the outcome of the request of each attempt,
    by ordinal. *)
Abbreviation Transport := (nat -> AxiosOutcome).

Inductive ReturnValue : Type :=
| FullResponse (response : IncomingMessage)
| BodyOnly (payload : JsVal).

Inductive Thrown : Type :=
| ThrowClientError (e : ApifyClientError)
| ThrowRetryableError (error : ApifyClientError)
| ThrowJsError (e : JsError).

Inductive Completion : Type :=
| Return (v : ReturnValue)
| Throw (t : Thrown).

(** The mutable state of one call: the statistics object and the closure
    variable [iteration]. *)
Record CallState : Type := mkCallState {
  stats : Stats;
  iteration : nat;
}.

(** The [TypeError] of an assignment to a property of [undefined]. *)
Definition TypeError_body : JsError :=
  mkJsError "TypeError" "Cannot set property 'body' of undefined".

(** The [TypeError] of a read of a property of [undefined]. *)
Definition TypeError_read_body : JsError :=
  mkJsError "TypeError" "Cannot read property 'body' of undefined".

(** [xs.includes(n)] for a number [n]. *)
Definition includes_num (xs : list JsVal) (n : Z) : bool :=
  existsb (fun v => match v with JNum m => Z.eqb m n | _ => false end) xs.

Definition status_of (code : option Z) : Status :=
  match code with
  | Some n => StNum n
  | None => StUndefined
  end.

(** [!statusCode || statusCode < 300] *)
Definition status_ok (s : Status) : bool :=
  match s with
  | StUndefined | StNull => true
  | StNum n => Z.eqb n 0 || Z.ltb n 300
  end.

(** [error && error.message ? error.message : error] *)
Definition error_entry (error : option JsError) : ErrorEntry :=
  match error with
  | None => EntryUndefined
  | Some e => if negb (String.eqb (err_message e) "") then EntryMessage (err_message e)
              else EntryError e
  end.

(** [this.stats.requests++] *)
Definition count_request (s : Stats) : Stats :=
  mkStats (calls s) (requests s + 1) (rateLimitErrors s).

(** [this.stats.calls++] *)
Definition count_call (s : Stats) : Stats :=
  mkStats (calls s + 1) (requests s) (rateLimitErrors s).

(** The update of [this.stats.rateLimitErrors[i]]. *)
Definition count_rate_limit (i : nat) (s : Stats) : Stats :=
  mkStats (calls s) (requests s)
    (match rateLimitErrors s !! i with
     | Some (JNum n) => <[i := JNum (n + 1)]> (rateLimitErrors s)
     | _ => <[i := JNum 1]> (rateLimitErrors s)
     end).

(** [statusCode >= 300 && statusCode < 500
     && !retryOnStatusCodes.includes(statusCode)] *)
Definition terminal_status (retryOnStatusCodes : list JsVal) (s : Status) : bool :=
  match s with
  | StNum n =>
    (Z.leb 300 n && Z.ltb n 500 && negb (includes_num retryOnStatusCodes n))%bool
  | _ => false
  end.

Section Request.

(** [JSON.parse] on a text, and the serialisation of a body into a message;
    both belong to the runtime and are parameters of the development. *)
Variable JSON_parse : string -> JsError + JsVal.
Variable serialize : JsVal -> string.

(** Modelled from the spec: the recognition of a nested error object, with
    a type and a message, in a response body (part of
    [newApifyClientErrorFromResponse], which is not in the tree). *)
Definition nested_error (body : JsVal) : option (string * string) :=
  match body with
  | JObj fields =>
    match (list_to_map fields : gmap string JsVal) !! "error" with
    | Some (JObj efields) =>
      let e : gmap string JsVal := list_to_map efields in
      match e !! "type", e !! "message" with
      | Some (JStr t), Some (JStr m) => Some (t, m)
      | _, _ => None
      end
    | _ => None
    end
  | _ => None
  end.

(** Modelled from the spec: [newApifyClientErrorFromResponse] of [./utils],
    which is not in the tree.  A body with a nested error object that has a
    type and a message gives them to the error; any other body is serialised
    into a message prefixed with "Unexpected error:", under the
    request-failed tag of the API version.  The request context becomes the
    details. *)
Definition newApifyClientErrorFromResponse
    (body isApiV1 : JsVal) (details : Details) : ApifyClientError :=
  match nested_error body with
  | Some (t, m) => mkApifyClientError (ServerErrorType t) m details
  | None =>
    mkApifyClientError
      (if truthy isApiV1 then REQUEST_FAILED_ERROR_TYPE_V1
       else REQUEST_FAILED_ERROR_TYPE_V2)
      ("Unexpected error: " +:+ serialize body) details
  end.

(** *** [makeRequest] *)

(** How control leaves the [try ... catch] of an attempt: by the [return],
    or past the [catch] with the locals [statusCode], [response] and
    [error] as assigned so far. *)
Inductive TryExit : Type :=
| TryReturn (v : ReturnValue)
| TryPassed (statusCode : Status) (response : option IncomingMessage)
    (error : option JsError).

(** [if (options.json && response.body)
       response.body = JSON.parse(response.body)]:
    the body after this statement, or the error that [JSON.parse] throws. *)
Definition decode (options : Options) (data : string) : JsError + JsVal :=
  if (truthy (get "json" options) && truthy (JStr data))%bool
  then JSON_parse data else inr (JStr data).

Definition try_block (options : Options) (outcome : AxiosOutcome) : TryExit :=
  match outcome with
  | AxiosRejected err => TryPassed StUndefined None (Some err)
  | AxiosResolved None _ => TryPassed StNull None (Some TypeError_body)
  | AxiosResolved (Some res) data =>
    let statusCode := status_of (statusCode res) in
    let response := mkIncomingMessage (HttpClient.statusCode res) (headers res) (JStr data) in
    match decode options data with
    | inl err => TryPassed statusCode (Some response) (Some err)
    | inr body' =>
      let response :=
        mkIncomingMessage (HttpClient.statusCode res) (headers res) body' in
      if status_ok statusCode then
        TryReturn (if truthy (get "resolveWithFullResponse" options)
                   then FullResponse response else BodyOnly (body response))
      else TryPassed statusCode (Some response) None
    end
  end.

(** The request-failed error of an attempt: details, message by ordinal and
    tag by API version.  The call of the constructor passes the caught error
    as a fourth argument, which the class does not store: the caught error
    reaches the error object through the details only. *)
Definition request_failed_error (options : Options) (isApiV1 : JsVal)
    (iteration : nat) (statusCode : Status) (error : option JsError)
  : ApifyClientError :=
  let errorDetails :=
    FailureDetails (get "url" options) (get "method" options)
      (get "params" options) (truthy (get "body" options))
      (error_entry error) statusCode iteration in
  let errorMsg :=
    if Nat.eqb iteration 1 then "API request failed on the first try"
    else "API request failed on retry number " +:+ string_of_nat (iteration - 1) in
  let REQUEST_FAILED_ERROR_TYPE :=
    if truthy isApiV1 then REQUEST_FAILED_ERROR_TYPE_V1
    else REQUEST_FAILED_ERROR_TYPE_V2 in
  mkApifyClientError REQUEST_FAILED_ERROR_TYPE errorMsg errorDetails.

Definition makeRequest (options : Options) (isApiV1 : JsVal)
    (retryOnStatusCodes : list JsVal) (transport : Transport)
    (st : CallState) : Completion * CallState :=
  let iteration := S (iteration st) in
  let stats := count_request (stats st) in
  match try_block options (transport iteration) with
  | TryReturn v => (Return v, mkCallState stats iteration)
  | TryPassed statusCode response error =>
    let stats :=
      match statusCode with
      | StNum n =>
        if Z.eqb n RATE_LIMIT_EXCEEDED_STATUS_CODE
        then count_rate_limit (iteration - 1) stats else stats
      | _ => stats
      end in
    let st' := mkCallState stats iteration in
    if terminal_status retryOnStatusCodes statusCode then
      match response with
      | Some response =>
        (Throw (ThrowClientError
                  (newApifyClientErrorFromResponse (body response) isApiV1
                     (ResponseDetails statusCode (get "url" options)
                        (get "method" options)))), st')
      | None => (Throw (ThrowJsError TypeError_read_body), st')
      end
    else
      let originalError :=
        request_failed_error options isApiV1 iteration statusCode error in
      (Throw (ThrowRetryableError originalError), st')
  end.

(** The locals of an attempt that got past the [catch], and whether such an
    attempt ends in the [RetryableError]. *)
Definition attempt_status (options : Options) (outcome : AxiosOutcome) : Status :=
  match try_block options outcome with
  | TryReturn _ => StUndefined
  | TryPassed statusCode _ _ => statusCode
  end.


Definition retryable_attempt (options : Options) (retryOnStatusCodes : list JsVal)
    (outcome : AxiosOutcome) : bool :=
  match try_block options outcome with
  | TryReturn _ => false
  | TryPassed statusCode _ _ => negb (terminal_status retryOnStatusCodes statusCode)
  end.

(** *** The retry driver, [_call] and [call] *)

(** How a call settles. *)
Inductive Reason : Type :=
| ClientError (e : ApifyClientError)
| OtherError (e : JsError).

Inductive Settled : Type :=
| Fulfilled (v : ReturnValue)
| Rejected (reason : Reason).

(** Modelled from the spec: [retryWithExpBackoff] of the package
    [apify-shared], which is not in the tree.  The function is attempted;
    a result resolves the call; an error that is not a [RetryableError]
    fails the call at once; a [RetryableError] fails the call with the error
    it wraps when the ordinal of the attempt has reached the maximum, and
    otherwise leads, after the backoff delay, to the next attempt.  The
    delay has no effect on the result and is left out; [retries] is the
    number of attempts still allowed after the current one. *)
Fixpoint backoff_loop (retries : nat)
    (func : CallState -> Completion * CallState) (st : CallState)
  : Settled * CallState :=
  match func st with
  | (Return v, st') => (Fulfilled v, st')
  | (Throw (ThrowClientError e), st') => (Rejected (ClientError e), st')
  | (Throw (ThrowJsError e), st') => (Rejected (OtherError e), st')
  | (Throw (ThrowRetryableError e), st') =>
    match retries with
    | O => (Rejected (ClientError e), st')
    | S retries' => backoff_loop retries' func st'
    end
  end.

Definition retryWithExpBackoff (func : CallState -> Completion * CallState)
    (expBackoffMaxRepeats : nat) (st : CallState) : Settled * CallState :=
  backoff_loop (expBackoffMaxRepeats - 1) func st.

(** [_call] on normalised options.  The result is [None] when the retry
    ceiling is not a number or the retryable statuses are not an array:
    the normaliser does not check these knobs, and what the client does with
    such values is outside this model. *)
Definition _call (options : Options) (transport : Transport) (stats : Stats)
  : option (Settled * Stats) :=
  let isApiV1 := get "isApiV1" options in
  match get "expBackoffMaxRepeats" options, get "retryOnStatusCodes" options with
  | JNum expBackoffMaxRepeats, JArr retryOnStatusCodes =>
    let stats := count_call stats in
    let '(r, st) :=
      retryWithExpBackoff (makeRequest options isApiV1 retryOnStatusCodes transport)
        (Z.to_nat expBackoffMaxRepeats) (mkCallState stats 0) in
    Some (r, HttpClient.stats st)
  | _, _ => None
  end.

Definition call (defaultOptions callOptions : Options) (transport : Transport)
    (stats : Stats) : option (Settled * Stats) :=
  let mergedOptions := spread defaultOptions callOptions in
  match _validateAndNormalizeOptions mergedOptions with
  | inl e => Some (Rejected (ClientError e), stats)
  | inr normalizedOptions => _call normalizedOptions transport stats
  end.

End Request.

(** *** [_getAxiosConfig] *)

Definition CONTENT_TYPE_HEADER_NAME : string := "Content-Type".

(** The configuration object handed to [axios.request], without the two
    keep-alive agents; [transformResponse] is the identity and
    [validateStatus] is [null]. *)
Record AxiosConfig : Type := mkAxiosConfig {
  config_baseURL : string;
  config_url : JsVal;
  config_method : JsVal;
  config_headers : gmap string JsVal;
  config_params : gmap string JsVal;
  config_data : JsVal;
  config_validateStatus : JsVal;
  config_responseType : JsVal;
}.

Section Config.

(** The user agent string is computed from the package version and the
    runtime, [CONTENT_TYPE_JSON] comes from [./utils], and [JSON.stringify]
    belongs to the runtime: the three are parameters. *)
Variable CLIENT_USER_AGENT : string.
Variable CONTENT_TYPE_JSON : string.
Variable JSON_stringify : JsVal -> string.

Definition CONTENT_TYPE_JSON_HEADER : string :=
  CONTENT_TYPE_JSON +:+ "; charset=utf-8".

(** The [transformRequest] function of the configuration: the data to send
    and the headers after its assignments. *)
Definition transformRequest (options : Options) (data : JsVal)
    (headers : gmap string JsVal) : JsVal * gmap string JsVal :=
  if (truthy (get "json" options) && truthy data)%bool then
    let cTypeLower := toLowerCase CONTENT_TYPE_HEADER_NAME in
    let headers := <[CONTENT_TYPE_HEADER_NAME := JStr CONTENT_TYPE_JSON_HEADER]> headers in
    let headers := <[cTypeLower := JStr CONTENT_TYPE_JSON_HEADER]> headers in
    (JStr (JSON_stringify data), headers)
  else (data, headers).

Definition _getAxiosConfig (options : Options) : AxiosConfig :=
  mkAxiosConfig
    (template_of (get "baseUrl" options) +:+ template_of (get "basePath" options))
    (get "url" options)
    (get "method" options)
    (own_props (get "headers" options)
     ∪ <["accept-encoding" := JStr "gzip"]>
         (<["user-agent" := JStr CLIENT_USER_AGENT]> ∅))
    (<["token" := get "token" options]> (own_props (get "qs" options)))
    (get "body" options)
    JNull
    (match get "encoding" options with
     | JNull => JStr "arraybuffer"
     | _ => JNull
     end).

End Config.
End HttpClient.

Import HttpClient.

(** ** Sample inputs *)

(** A stand-in for [JSON.parse] on the texts of the examples: the literals
    it knows parse to their values and every other text is rejected with a
    [SyntaxError]; of the rejected texts the examples use only the truncated
    one of a single opening brace, which [JSON.parse] rejects as well. *)
Definition JSON_parse_sample (text : string) : JsError + JsVal :=
  if String.eqb text "null" then inr JNull
  else if String.eqb text "true" then inr (JBool true)
  else if String.eqb text "{}" then inr (JObj [])
  else if String.eqb text "[]" then inr (JArr [])
  else inl (mkJsError "SyntaxError" "Unexpected end of JSON input").

Definition serialize_sample (v : JsVal) : string :=
  match v with
  | JStr s => s
  | JNull => "null"
  | _ => "{}"
  end.

Definition options_of (fields : list (string * JsVal)) : Options :=
  list_to_map fields.

Definition sample_stats : Stats := mkStats 0 0 ∅.

Definition sample_options : Options :=
  options_of [("baseUrl", JStr "https://api.apify.com");
              ("method", JStr "pAtCh");
              ("url", JStr "/v2/acts");
              ("json", JBool true)].

Definition respond (code : option Z) (data : string) : Transport :=
  fun _ => AxiosResolved (Some (mkIncomingMessage code JNull JUndefined)) data.

(** The messages of the normaliser, spelled out. *)
Definition invalid_method_message (got : string) : string :=
  "The " +:+ dquote +:+ "options.method" +:+ dquote
  +:+ " parameter is invalid. Expected one of GET, DELETE, HEAD, POST, PUT, PATCH but got: "
  +:+ got.

Definition token_required_message : string :=
  "The " +:+ dquote +:+ "options.token" +:+ dquote
  +:+ " parameter of type string is required.".

(** The tag that the flag [isApiV1] selects for an invalid parameter. *)
Definition selected_invalid_parameter_tag (options : Options) : ErrorType :=
  if truthy (get "isApiV1" options) then INVALID_PARAMETER_ERROR_TYPE_V1
  else INVALID_PARAMETER_ERROR_TYPE_V2.

(** The base URL after the removal of one trailing slash. *)
Definition strip_slash (baseUrl : string) : string :=
  if String.eqb (substr_last baseUrl) "/" then slice_init baseUrl else baseUrl.

(** The bag that the normaliser returns for a base URL [b] and a method
    [m]. *)
Definition normalized (options : Options) (b m : string) : Options :=
  <["retryOnStatusCodes" :=
      get_or "retryOnStatusCodes" (JArr [JNum RATE_LIMIT_EXCEEDED_STATUS_CODE]) options]>
  (<["expBackoffMaxRepeats" :=
      get_or "expBackoffMaxRepeats" (JNum EXP_BACKOFF_MAX_REPEATS) options]>
   (<["expBackoffMillis" := get_or "expBackoffMillis" (JNum EXP_BACKOFF_MILLIS) options]>
    (<["method" := JStr (toUpperCase m)]>
     (<["baseUrl" := JStr (strip_slash b)]> options)))).

Definition bad_method_options : Options :=
  options_of [("isApiV1", JBool true);
              ("baseUrl", JStr "https://api.apify.com");
              ("method", JStr "FETCH")].

Definition empty_token_options : Options :=
  options_of [("baseUrl", JStr "https://api.apify.com");
              ("method", JStr "GET");
              ("authRequired", JBool true);
              ("token", JStr "")].

Definition missing_token_options : Options :=
  options_of [("baseUrl", JStr "https://api.apify.com");
              ("method", JStr "GET");
              ("authRequired", JBool true)].

Definition string_token_options : Options :=
  options_of [("baseUrl", JStr "https://api.apify.com");
              ("method", JStr "GET");
              ("authRequired", JBool true);
              ("token", JStr "s3cr3t")].

Definition double_slash_options : Options :=
  options_of [("baseUrl", JStr "https://api.apify.com//");
              ("method", JStr "GET")].

Definition single_slash_options : Options :=
  options_of [("baseUrl", JStr "https://api.apify.com/");
              ("method", JStr "get")].

(** The tags of an invalid parameter. *)
Definition is_invalid_parameter (t : ErrorType) : Prop :=
  t = INVALID_PARAMETER_ERROR_TYPE_V1 ∨ t = INVALID_PARAMETER_ERROR_TYPE_V2.

(** The state after an attempt that got past the [catch] with status
    [sc]. *)
Definition passed_state (st : CallState) (sc : Status) : CallState :=
  mkCallState
    (match sc with
     | StNum n =>
       if Z.eqb n RATE_LIMIT_EXCEEDED_STATUS_CODE
       then count_rate_limit (S (iteration st) - 1) (count_request (stats st))
       else count_request (stats st)
     | _ => count_request (stats st)
     end)
    (S (iteration st)).

(** The other two messages of the normaliser. *)
Definition base_url_required_message : string :=
  "The " +:+ dquote +:+ "options.baseUrl" +:+ dquote
  +:+ " parameter of type string is required.".

Definition method_required_message : string :=
  "The " +:+ dquote +:+ "options.method" +:+ dquote
  +:+ " parameter of type string is required.".

(** The three retry knobs of the option bag. *)
Definition retry_knobs : list string :=
  ["expBackoffMillis"; "expBackoffMaxRepeats"; "retryOnStatusCodes"].

Definition slash_options (b : string) : Options :=
  options_of [("baseUrl", JStr (b +:+ "/")); ("method", JStr "GET")].

Definition odd_knob_options : Options :=
  options_of [("baseUrl", JStr "https://api.apify.com");
              ("method", JStr "post");
              ("token", JNum 7);
              ("expBackoffMaxRepeats", JStr "many");
              ("retryOnStatusCodes", JNull)].

Definition refuse (err : JsError) : Transport := fun _ => AxiosRejected err.

Definition no_response (data : string) : Transport :=
  fun _ => AxiosResolved None data.

Definition plain_options : Options :=
  options_of [("baseUrl", JStr "https://api.apify.com");
              ("method", JStr "GET");
              ("url", JStr "/v2/acts")].

Definition config_options : Options :=
  options_of [("baseUrl", JStr "https://api.apify.com/");
              ("basePath", JStr "/v2");
              ("method", JStr "post");
              ("url", JStr "/acts");
              ("token", JStr "s3cr3t");
              ("json", JBool true);
              ("body", JObj [("name", JStr "my-act")]);
              ("qs", JObj [("limit", JNum 10); ("token", JStr "other")]);
              ("headers", JObj [("Content-Type", JStr "text/plain");
                                ("User-Agent", JStr "mine")])].

Definition JSON_stringify_sample (v : JsVal) : string :=
  match v with
  | JObj [] => "{}"
  | JObj _ => "{...}"
  | JStr s => dquote +:+ s +:+ dquote
  | _ => "null"
  end.

Definition masked_call_options : Options :=
  options_of [("baseUrl", JUndefined); ("method", JStr "GET")].

Definition client_defaults : Options :=
  options_of [("baseUrl", JStr "https://api.apify.com"); ("isApiV1", JBool true)].

(** ** The act methods ([acts.js]) *)

Module Acts.

Definition BASE_PATH : string := "/v2/acts".

Definition replaceSlashWithTilde (str : string) : string :=
  replace_first "/"%char "~"%char str.

(** The request that a method hands to [requestPromise]. *)
Record Request : Type := mkRequest {
  url : string;
  json : JsVal;
  method : string;
  qs : gmap string JsVal;
  body : JsVal;
}.

(** The [TypeError] of a call of [replace] on a value that is not a string,
    and of a read of [id] on [undefined] or [null]. *)
Definition TypeError_replace : JsError :=
  mkJsError "TypeError" "str.replace is not a function".

Definition TypeError_id : JsError :=
  mkJsError "TypeError" "Cannot read property 'id' of undefined".

(** [replaceSlashWithTilde] on an arbitrary value. *)
Definition replaceSlashWithTilde_val (v : JsVal) : JsError + string :=
  match v with
  | JStr s => inr (replaceSlashWithTilde s)
  | _ => inl TypeError_replace
  end.

(** [v.id] *)
Definition get_id (v : JsVal) : JsError + JsVal :=
  match v with
  | JUndefined | JNull => inl TypeError_id
  | JObj fields => inr (default JUndefined ((list_to_map fields : gmap string JsVal) !! "id"))
  | _ => inr JUndefined
  end.

(** The properties that underscore enumerates on a value. *)
Definition own_fields (v : JsVal) : list (string * JsVal) :=
  match v with
  | JObj fields => fields
  | JArr items => imap (fun i x => (string_of_nat i, x)) items
  | JStr s =>
    imap (fun i c => (string_of_nat i, JStr (String c EmptyString)))
      (list_ascii_of_string s)
  | _ => []
  end.

(** [_.omit(v, key)] *)
Definition omit (v : JsVal) (key : string) : JsVal :=
  JObj (filter (fun kv => negb (String.eqb (fst kv) key)) (own_fields v)).

(** The query of the listing methods: the token, and the limit, the offset
    and the flag [desc] when they are truthy. *)
Definition list_query (token limit offset desc : JsVal) : gmap string JsVal :=
  let query : gmap string JsVal := {["token" := token]} in
  let query := if truthy limit then <["limit" := limit]> query else query in
  let query := if truthy offset then <["offset" := offset]> query else query in
  if truthy desc then <["desc" := JNum 1]> query else query.

Section Methods.

(** [checkParamOrThrow] of [./utils] is not in the tree and is a parameter:
    the error it throws for a value, a name and a type description, if
    any. *)
Variable checkParamOrThrow : JsVal -> string -> string -> option ApifyClientError.

(** A run of checks: the error of the first one that throws. *)
Fixpoint check_all (checks : list (JsVal * string * string))
  : option ApifyClientError :=
  match checks with
  | [] => None
  | (v, name, ty) :: rest =>
    match checkParamOrThrow v name ty with
    | Some e => Some e
    | None => check_all rest
    end
  end.

(** The methods, up to the call of [requestPromise]: the error thrown
    before it, or the request handed to it. *)
Definition listActs (options : Options) : HttpClient.Reason + Request :=
  let baseUrl := get "baseUrl" options in
  let token := get "token" options in
  let offset := get "offset" options in
  let limit := get "limit" options in
  let desc := get "desc" options in
  match check_all [(baseUrl, "baseUrl", "String"); (token, "token", "String");
                   (limit, "limit", "Maybe Number");
                   (offset, "offset", "Maybe Number");
                   (desc, "desc", "Maybe Boolean")] with
  | Some e => inl (HttpClient.ClientError e)
  | None =>
    inr (mkRequest (template_of baseUrl +:+ BASE_PATH) (JBool true) "GET"
           (list_query token limit offset desc) JUndefined)
  end.

Definition getAct (options : Options) : HttpClient.Reason + Request :=
  let baseUrl := get "baseUrl" options in
  let token := get "token" options in
  let actId := get "actId" options in
  match check_all [(baseUrl, "baseUrl", "String"); (actId, "actId", "String")] with
  | Some e => inl (HttpClient.ClientError e)
  | None =>
    match replaceSlashWithTilde_val actId with
    | inl err => inl (HttpClient.OtherError err)
    | inr safeActId =>
      inr (mkRequest (template_of baseUrl +:+ BASE_PATH +:+ "/" +:+ safeActId)
             (JBool true) "GET" {["token" := token]} JUndefined)
    end
  end.

Definition updateAct (options : Options) : HttpClient.Reason + Request :=
  let baseUrl := get "baseUrl" options in
  let token := get "token" options in
  let actId := get "actId" options in
  let act := get "act" options in
  let chosen :=
    if negb (truthy actId) then
      match get_id act with
      | inl err => inl err
      | inr id => inr (if truthy id then id else actId)
      end
    else inr actId in
  match chosen with
  | inl err => inl (HttpClient.OtherError err)
  | inr chosen =>
    match replaceSlashWithTilde_val chosen with
    | inl err => inl (HttpClient.OtherError err)
    | inr safeActId =>
      match check_all [(baseUrl, "baseUrl", "String"); (token, "token", "String");
                       (JStr safeActId, "actId", "String");
                       (act, "act", "Object")] with
      | Some e => inl (HttpClient.ClientError e)
      | None =>
        inr (mkRequest (template_of baseUrl +:+ BASE_PATH +:+ "/" +:+ safeActId)
               (JBool true) "PUT" {["token" := token]} (omit act "id"))
      end
    end
  end.

End Methods.
End Acts.

(** A stand-in for [checkParamOrThrow] on the type descriptions that the
    modelled methods use. *)
Definition checkParamOrThrow_sample (v : JsVal) (name ty : string)
  : option ApifyClientError :=
  let ok :=
    if String.eqb ty "String" then String.eqb (typeof v) "string"
    else if String.eqb ty "Maybe Number" then
      (String.eqb (typeof v) "number" || String.eqb (typeof v) "undefined")%bool
    else if String.eqb ty "Maybe Boolean" then
      (String.eqb (typeof v) "boolean" || String.eqb (typeof v) "undefined")%bool
    else match v with JObj _ => true | _ => false end in
  if ok then None
  else Some (mkApifyClientError INVALID_PARAMETER_ERROR_TYPE_V2
               ("Parameter " +:+ name +:+ " of type " +:+ ty +:+ " must be provided")
               NoDetails).

Definition list_options : Options :=
  options_of [("baseUrl", JStr "https://api.apify.com");
              ("token", JStr "s3cr3t");
              ("limit", JNum 0);
              ("offset", JNum 20);
              ("desc", JBool true)].

Definition update_options : Options :=
  options_of [("baseUrl", JStr "https://api.apify.com");
              ("token", JStr "s3cr3t");
              ("act", JObj [("id", JStr "user/my-act"); ("name", JStr "my-act")])].

Definition update_options_no_id : Options :=
  options_of [("token", JStr "s3cr3t");
              ("act", JObj [("name", JStr "my-act")])].

(** The number of occurrences of a character in a string. *)
Fixpoint count_char (a : ascii) (s : string) : nat :=
  match s with
  | EmptyString => O
  | String c rest => (if Ascii.eqb c a then 1 else 0) + count_char a rest
  end.

Definition getAct_options : Options :=
  options_of [("baseUrl", JStr "https://api.apify.com");
              ("actId", JStr "user/my-act")].

Definition list_request : Acts.Request :=
  Acts.mkRequest "https://api.apify.com/v2/acts" (JBool true) "GET"
    (<["desc" := JNum 1]>
       (<["offset" := JNum 20]> {["token" := JStr "s3cr3t"]}))
    JUndefined.

Definition getAct_request_sample : Acts.Request :=
  Acts.mkRequest "https://api.apify.com/v2/acts/user~my-act" (JBool true) "GET"
    {["token" := JUndefined]} JUndefined.

Definition update_request : Acts.Request :=
  Acts.mkRequest "https://api.apify.com/v2/acts/user~my-act" (JBool true) "PUT"
    {["token" := JStr "s3cr3t"]} (JObj [("name", JStr "my-act")]).




(** The method name "post" written with the long s (U+017F), whose UTF-8
    text is C5 BF. *)
Definition long_s_post : string :=
  "po" +:+ String "197"%char (String "191"%char "t").

Definition long_s_options : Options :=
  options_of [("baseUrl", JStr "https://api.apify.com");
              ("method", JStr long_s_post)].

(** ** Facts about strings and bags *)

Lemma get_insert_eq (k : string) (v : JsVal) (o : Options) :
  get k (<[k := v]> o) = v.
Proof. unfold get. now rewrite lookup_insert_eq. Qed.

Lemma get_insert_ne (k k' : string) (v : JsVal) (o : Options) :
  k ≠ k' → get k' (<[k := v]> o) = get k' o.
Proof. intros Hne. unfold get. now rewrite lookup_insert_ne. Qed.

Lemma get_or_defined (k : string) (d : JsVal) (o : Options) :
  d ≠ JUndefined → get_or k d o ≠ JUndefined.
Proof. intros Hd. unfold get_or. destruct (get k o); congruence. Qed.

Lemma get_or_fixed (k : string) (d v : JsVal) (o : Options) :
  v ≠ JUndefined → get k o = v → get_or k d o = v.
Proof. intros Hv Hk. unfold get_or. rewrite Hk. destruct v; congruence. Qed.

Lemma get_or_reread (k : string) (d : JsVal) (o o' : Options) :
  d ≠ JUndefined → o' !! k = Some (get_or k d o) → get_or k d o' = get_or k d o.
Proof.
  intros Hd Hk. apply get_or_fixed; [now apply get_or_defined|].
  unfold get at 1. now rewrite Hk.
Qed.

Lemma includes_allowed_upper (m : string) :
  includes_str ALLOWED_HTTP_METHODS m = true → toUpperCase m = m.
Proof.
  unfold includes_str, ALLOWED_HTTP_METHODS. simpl.
  rewrite !orb_true_iff, !String.eqb_eq.
  intros [->|[->|[->|[->|[->|[->|H]]]]]]; try reflexivity; discriminate.
Qed.

(** ** The normaliser *)

(** The three ways the normaliser ends once the base URL and the method
    are strings. *)
Lemma normalize_method_rejected (options : Options) (b m : string) :
  get "baseUrl" options = JStr b → get "method" options = JStr m →
  includes_str ALLOWED_HTTP_METHODS (toUpperCase m) = false →
  _validateAndNormalizeOptions options
  = inl (mkApifyClientError INVALID_PARAMETER_ERROR_TYPE_V2
           (invalid_method_message m) NoDetails).
Proof.
  intros Hb Hm Hinc. unfold _validateAndNormalizeOptions.
  rewrite Hb, Hm. cbv zeta. rewrite Hinc. reflexivity.
Qed.

Lemma normalize_token_rejected (options : Options) (b m : string) :
  get "baseUrl" options = JStr b → get "method" options = JStr m →
  includes_str ALLOWED_HTTP_METHODS (toUpperCase m) = true →
  truthy (get "authRequired" options) = true →
  typeof (get "token" options) ≠ "string" →
  _validateAndNormalizeOptions options
  = inl (mkApifyClientError (selected_invalid_parameter_tag options)
           token_required_message NoDetails).
Proof.
  intros Hb Hm Hinc Hauth Htok. unfold _validateAndNormalizeOptions.
  rewrite Hb, Hm. cbv zeta. rewrite Hinc, Hauth.
  apply String.eqb_neq in Htok. rewrite Htok. reflexivity.
Qed.

Lemma normalize_accepted (options : Options) (b m : string) :
  get "baseUrl" options = JStr b → get "method" options = JStr m →
  includes_str ALLOWED_HTTP_METHODS (toUpperCase m) = true →
  truthy (get "authRequired" options) = false
  ∨ typeof (get "token" options) = "string" →
  _validateAndNormalizeOptions options = inr (normalized options b m).
Proof.
  intros Hb Hm Hinc Htok. unfold _validateAndNormalizeOptions.
  rewrite Hb, Hm. cbv zeta. rewrite Hinc.
  destruct Htok as [-> | ->]; [reflexivity|].
  rewrite andb_false_r. reflexivity.
Qed.

Lemma includes_str_elem (xs : list string) (x : string) :
  includes_str xs x = true ↔ x ∈ xs.
Proof.
  unfold includes_str. rewrite existsb_exists, list_elem_of_In. split.
  - intros (y & Hy & Heq). apply String.eqb_eq in Heq. now subst.
  - intros Hx. exists x. split; [assumption|apply String.eqb_refl].
Qed.

(** What an accepted bag looks like. *)
Lemma normalize_inr_inv (options o : Options) :
  _validateAndNormalizeOptions options = inr o →
  ∃ b m, get "baseUrl" options = JStr b ∧ get "method" options = JStr m
    ∧ includes_str ALLOWED_HTTP_METHODS (toUpperCase m) = true
    ∧ (truthy (get "authRequired" options) = false
       ∨ typeof (get "token" options) = "string")
    ∧ o = normalized options b m.
Proof.
  unfold _validateAndNormalizeOptions.
  destruct (get "baseUrl" options) as [| | | |b| |] eqn:Hb; try discriminate.
  destruct (get "method" options) as [| | | |m| |] eqn:Hm; try discriminate.
  cbv zeta.
  destruct (includes_str ALLOWED_HTTP_METHODS (toUpperCase m)) eqn:Hinc;
    [|discriminate].
  cbn [negb].
  destruct (truthy (get "authRequired" options)) eqn:Hauth; cbn [andb].
  - destruct (String.eqb (typeof (get "token" options)) "string") eqn:Htok;
      cbn [negb]; [|discriminate].
    intros [= <-]. exists b, m. apply String.eqb_eq in Htok. auto 10.
  - intros [= <-]. exists b, m. auto 10.
Qed.

Lemma strip_slash_stable (b : string) :
  ¬ (substr_last b = "/" ∧ substr_last (slice_init b) = "/") →
  strip_slash (strip_slash b) = strip_slash b ∧ substr_last (strip_slash b) ≠ "/".
Proof.
  intros Hb. unfold strip_slash.
  destruct (String.eqb (substr_last b) "/") eqn:Hlast.
  - apply String.eqb_eq in Hlast.
    assert (Hinit : substr_last (slice_init b) ≠ "/") by tauto.
    apply String.eqb_neq in Hinit as Hinit'. rewrite Hinit'. auto.
  - rewrite Hlast. apply String.eqb_neq in Hlast. auto.
Qed.

(** The five properties that the normaliser writes, read back. *)
Lemma normalized_lookups (options : Options) (b m : string) :
  let o := normalized options b m in
  o !! "baseUrl" = Some (JStr (strip_slash b))
  ∧ o !! "method" = Some (JStr (toUpperCase m))
  ∧ o !! "expBackoffMillis"
    = Some (get_or "expBackoffMillis" (JNum EXP_BACKOFF_MILLIS) options)
  ∧ o !! "expBackoffMaxRepeats"
    = Some (get_or "expBackoffMaxRepeats" (JNum EXP_BACKOFF_MAX_REPEATS) options)
  ∧ o !! "retryOnStatusCodes"
    = Some (get_or "retryOnStatusCodes"
              (JArr [JNum RATE_LIMIT_EXCEEDED_STATUS_CODE]) options).
Proof. unfold normalized. cbv zeta. repeat split; by simplify_map_eq. Qed.

(** Properties that the normaliser does not write pass through. *)
Lemma normalized_other (options : Options) (b m k : string) :
  includes_str ["baseUrl"; "method"; "expBackoffMillis"; "expBackoffMaxRepeats";
                "retryOnStatusCodes"] k = false →
  get k (normalized options b m) = get k options.
Proof.
  intros Hk. unfold normalized.
  rewrite !get_insert_ne; [reflexivity|..]; intros <-; discriminate Hk.
Qed.

Lemma normalized_fixed (options : Options) (b m : string) :
  strip_slash (strip_slash b) = strip_slash b →
  includes_str ALLOWED_HTTP_METHODS (toUpperCase m) = true →
  let o := normalized options b m in
  normalized o (strip_slash b) (toUpperCase m) = o.
Proof.
  intros Hb Hinc o.
  destruct (normalized_lookups options b m) as (H1 & H2 & H3 & H4 & H5).
  fold o in H1, H2, H3, H4, H5.
  unfold normalized at 1. rewrite Hb, (includes_allowed_upper _ Hinc).
  rewrite (insert_id o "baseUrl") by exact H1.
  rewrite (insert_id o "method") by exact H2.
  rewrite (get_or_reread "expBackoffMillis" _ options o) by (discriminate || exact H3).
  rewrite (insert_id o "expBackoffMillis") by exact H3.
  rewrite (get_or_reread "expBackoffMaxRepeats" _ options o)
    by (discriminate || exact H4).
  rewrite (insert_id o "expBackoffMaxRepeats") by exact H4.
  rewrite (get_or_reread "retryOnStatusCodes" _ options o)
    by (discriminate || exact H5).
  now rewrite (insert_id o "retryOnStatusCodes") by exact H5.
Qed.

Lemma normalize_rejects_bad_method (options : Options) (m : string) :
  get "method" options = JStr m →
  includes_str ALLOWED_HTTP_METHODS (toUpperCase m) = false →
  ∃ e, _validateAndNormalizeOptions options = inl e ∧ is_invalid_parameter (type e).
Proof.
  intros Hm Hinc. unfold _validateAndNormalizeOptions, is_invalid_parameter.
  rewrite Hm.
  destruct (get "baseUrl" options); cbv zeta; try rewrite Hinc; cbn [negb];
    eexists; (split; [reflexivity|]); cbn [type];
    destruct (truthy (get "isApiV1" options)); auto.
Qed.

(** C5.  A method string whose upper-case form is outside
    [GET, DELETE, HEAD, POST, PUT, PATCH] makes the normaliser fail with an
    invalid-parameter error, and once the base URL is a string (so that the
    method check is the one that fails) the message of that error lists the
    allowed methods.  A method that is a member of the set up to letter case
    passes the method check and is stored in upper case: the normaliser
    returns the normalised bag, with the method in upper case, unless the
    credential is required and the token is not a string, in which case it
    fails with the token error. *)
Theorem method_membership_decides (options : Options) (m : string) :
  get "method" options = JStr m →
  (toUpperCase m ∉ ALLOWED_HTTP_METHODS →
   ∃ e, _validateAndNormalizeOptions options = inl e
     ∧ is_invalid_parameter (type e)
     ∧ ∀ b, get "baseUrl" options = JStr b →
         e = mkApifyClientError INVALID_PARAMETER_ERROR_TYPE_V2
               (invalid_method_message m) NoDetails)
  ∧ (∀ M b, M ∈ ALLOWED_HTTP_METHODS → toUpperCase m = toUpperCase M →
     get "baseUrl" options = JStr b →
     get "method" (normalized options b m) = JStr M
     ∧ _validateAndNormalizeOptions options
       = if (truthy (get "authRequired" options)
             && negb (String.eqb (typeof (get "token" options)) "string"))%bool
         then inl (mkApifyClientError (selected_invalid_parameter_tag options)
                     token_required_message NoDetails)
         else inr (normalized options b m)).
Proof.
  intros Hm. split.
  - intros Hout.
    assert (Hinc : includes_str ALLOWED_HTTP_METHODS (toUpperCase m) = false).
    { destruct (includes_str ALLOWED_HTTP_METHODS (toUpperCase m)) eqn:Hinc;
        [|reflexivity].
      apply includes_str_elem in Hinc. contradiction. }
    destruct (normalize_rejects_bad_method options m Hm Hinc) as (e & He & Htag).
    exists e. repeat split; [exact He|exact Htag|].
    intros b Hb. rewrite (normalize_method_rejected options b m Hb Hm Hinc) in He.
    now injection He.
  - intros M b HM Hcase Hb.
    assert (HMup : toUpperCase M = M)
      by (apply includes_allowed_upper; now apply includes_str_elem).
    rewrite HMup in Hcase.
    assert (Hinc : includes_str ALLOWED_HTTP_METHODS (toUpperCase m) = true)
      by (rewrite Hcase; now apply includes_str_elem).
    split.
    + destruct (normalized_lookups options b m) as (_ & H2 & _).
      unfold get. rewrite H2, Hcase. reflexivity.
    + destruct (truthy (get "authRequired" options)) eqn:Hauth; cbn [andb].
      * destruct (String.eqb (typeof (get "token" options)) "string") eqn:Htok;
          cbn [negb].
        -- apply String.eqb_eq in Htok. apply normalize_accepted; auto.
        -- apply String.eqb_neq in Htok.
           apply normalize_token_rejected with b m; auto.
      * apply normalize_accepted; auto.
Qed.

Lemma method_membership_decides_witness :
  _validateAndNormalizeOptions bad_method_options
  = inl (mkApifyClientError INVALID_PARAMETER_ERROR_TYPE_V2
           (invalid_method_message "FETCH") NoDetails)
  ∧ (get "method" (normalized sample_options "https://api.apify.com" "pAtCh")
     = JStr "PATCH"
     ∧ _validateAndNormalizeOptions sample_options
       = inr (normalized sample_options "https://api.apify.com" "pAtCh"))
  ∧ (get "method" (normalized long_s_options "https://api.apify.com" long_s_post)
     = JStr "POST"
     ∧ _validateAndNormalizeOptions long_s_options
       = inr (normalized long_s_options "https://api.apify.com" long_s_post)).
Proof.
  split; [|split].
  - destruct (proj1 (method_membership_decides bad_method_options "FETCH" eq_refl))
      as (e & He & _ & Hmsg).
    + rewrite <- includes_str_elem. vm_compute. discriminate.
    + rewrite He. f_equal. exact (Hmsg "https://api.apify.com" eq_refl).
  - apply (proj2 (method_membership_decides sample_options "pAtCh" eq_refl)
             "PATCH" "https://api.apify.com").
    + rewrite <- includes_str_elem. reflexivity.
    + reflexivity.
    + reflexivity.
  - apply (proj2 (method_membership_decides long_s_options long_s_post eq_refl)
             "POST" "https://api.apify.com").
    + rewrite <- includes_str_elem. reflexivity.
    + reflexivity.
    + reflexivity.
Defined.

(** C6, as the code has it.  With a required credential (and a string base
    URL and an allowed method), the normaliser fails with the
    invalid-parameter error of the selected API version exactly when the
    token is not of type string; a token of type string, the empty string
    included, passes. *)
Theorem required_token_is_type_checked (options : Options) (b m : string) :
  get "baseUrl" options = JStr b → get "method" options = JStr m →
  includes_str ALLOWED_HTTP_METHODS (toUpperCase m) = true →
  truthy (get "authRequired" options) = true →
  (typeof (get "token" options) ≠ "string" →
   _validateAndNormalizeOptions options
   = inl (mkApifyClientError (selected_invalid_parameter_tag options)
            token_required_message NoDetails))
  ∧ (typeof (get "token" options) = "string" →
     _validateAndNormalizeOptions options = inr (normalized options b m)).
Proof.
  intros Hb Hm Hinc Hauth. split; intros Htok.
  - now apply normalize_token_rejected with b m.
  - apply normalize_accepted; auto.
Qed.

Lemma required_token_is_type_checked_witness :
  _validateAndNormalizeOptions missing_token_options
  = inl (mkApifyClientError INVALID_PARAMETER_ERROR_TYPE_V2
           token_required_message NoDetails)
  ∧ _validateAndNormalizeOptions string_token_options
    = inr (normalized string_token_options "https://api.apify.com" "GET").
Proof.
  split.
  - apply (required_token_is_type_checked missing_token_options
             "https://api.apify.com" "GET" eq_refl eq_refl eq_refl eq_refl).
    vm_compute. discriminate.
  - apply (required_token_is_type_checked string_token_options
             "https://api.apify.com" "GET" eq_refl eq_refl eq_refl eq_refl).
    reflexivity.
Defined.

(** C6 as stated fails: a required credential whose token is the empty
    string is accepted. *)
Lemma empty_required_token_accepted :
  truthy (get "authRequired" empty_token_options) = true
  ∧ get "token" empty_token_options = JStr ""
  ∧ _validateAndNormalizeOptions empty_token_options
    = inr (normalized empty_token_options "https://api.apify.com" "GET").
Proof. repeat split. Qed.

(** C7, as the code has it.  On an accepted bag whose base URL does not end
    in two slashes, the normaliser returns a bag on which it is the
    identity; the base URL of that bag is the given one without its trailing
    slash, if it had one, and does not end in a slash. *)
Theorem normalization_idempotent (options o : Options) (b : string) :
  _validateAndNormalizeOptions options = inr o →
  get "baseUrl" options = JStr b →
  ¬ (substr_last b = "/" ∧ substr_last (slice_init b) = "/") →
  _validateAndNormalizeOptions o = inr o
  ∧ get "baseUrl" o = JStr (strip_slash b)
  ∧ substr_last (strip_slash b) ≠ "/".
Proof.
  intros Hnorm Hb Hslash.
  destruct (normalize_inr_inv _ _ Hnorm) as (b0 & m & Hb0 & Hm & Hinc & Htok & ->).
  rewrite Hb in Hb0. injection Hb0 as <-.
  destruct (strip_slash_stable b Hslash) as [Hstable Hlast].
  destruct (normalized_lookups options b m) as (H1 & H2 & _).
  split.
  - rewrite <- (normalized_fixed options b m Hstable Hinc) at 2.
    apply normalize_accepted.
    + unfold get. now rewrite H1.
    + unfold get. now rewrite H2.
    + now rewrite (includes_allowed_upper _ Hinc).
    + rewrite !normalized_other by reflexivity. exact Htok.
  - split; [|exact Hlast]. unfold get. now rewrite H1.
Qed.

Lemma normalization_idempotent_witness :
  let o := normalized single_slash_options "https://api.apify.com/" "get" in
  _validateAndNormalizeOptions o = inr o
  ∧ get "baseUrl" o = JStr "https://api.apify.com"
  ∧ substr_last "https://api.apify.com" ≠ "/".
Proof.
  apply (normalization_idempotent single_slash_options _ "https://api.apify.com/").
  - reflexivity.
  - reflexivity.
  - intros [_ H]. vm_compute in H. discriminate.
Defined.

(** C7 as stated fails: of two trailing slashes one is removed, the
    normalised base URL still ends in a slash, and a second normalisation
    changes the bag. *)
Lemma double_slash_not_stable :
  ∃ o, _validateAndNormalizeOptions double_slash_options = inr o
    ∧ get "baseUrl" o = JStr "https://api.apify.com/"
    ∧ _validateAndNormalizeOptions o ≠ inr o.
Proof.
  exists (normalized double_slash_options "https://api.apify.com//" "GET").
  repeat split.
  intros H.
  apply (f_equal (fun r => match r with
                           | inr o' => get "baseUrl" o'
                           | inl _ => JUndefined
                           end)) in H.
  vm_compute in H. discriminate.
Qed.

(** C8, at the failing input.  With [isApiV1] set, the flag selects the v1
    tag, yet the error for a method outside the allowed set carries the v2
    tag. *)
Theorem invalid_method_tag_is_v2 :
  selected_invalid_parameter_tag bad_method_options = INVALID_PARAMETER_ERROR_TYPE_V1
  ∧ _validateAndNormalizeOptions bad_method_options
    = inl (mkApifyClientError INVALID_PARAMETER_ERROR_TYPE_V2
             (invalid_method_message "FETCH") NoDetails).
Proof. split; reflexivity. Qed.

(** ** One attempt *)

Section RequestFacts.

Variable JSON_parse : string -> JsError + JsVal.
Variable serialize : JsVal -> string.

Variables (options : Options) (isApiV1 : JsVal) (codes : list JsVal).
Variable transport : Transport.

Local Abbreviation attempt :=
  (makeRequest JSON_parse serialize options isApiV1 codes transport).

Lemma makeRequest_returns (st : CallState) (v : ReturnValue) :
  try_block JSON_parse options (transport (S (iteration st))) = TryReturn v →
  attempt st = (Return v, mkCallState (count_request (stats st)) (S (iteration st))).
Proof. intros H. unfold attempt, makeRequest. now rewrite H. Qed.

Lemma makeRequest_terminal (st : CallState) (sc : Status)
    (response : IncomingMessage) (error : option JsError) :
  try_block JSON_parse options (transport (S (iteration st)))
  = TryPassed sc (Some response) error →
  terminal_status codes sc = true →
  attempt st
  = (Throw (ThrowClientError
              (newApifyClientErrorFromResponse serialize (body response) isApiV1
                 (ResponseDetails sc (get "url" options) (get "method" options)))),
     passed_state st sc).
Proof.
  intros H Hterm. unfold makeRequest. rewrite H, Hterm. reflexivity.
Qed.

Lemma makeRequest_retryable (st : CallState) (sc : Status)
    (response : option IncomingMessage) (error : option JsError) :
  try_block JSON_parse options (transport (S (iteration st)))
  = TryPassed sc response error →
  terminal_status codes sc = false →
  attempt st
  = (Throw (ThrowRetryableError
              (request_failed_error options isApiV1 (S (iteration st)) sc error)),
     passed_state st sc).
Proof.
  intros H Hterm. unfold makeRequest. rewrite H, Hterm. reflexivity.
Qed.

Lemma try_block_response (res : IncomingMessage) (data : string) :
  try_block JSON_parse options (AxiosResolved (Some res) data)
  = match decode JSON_parse options data with
    | inl err =>
      TryPassed (status_of (statusCode res))
        (Some (mkIncomingMessage (statusCode res) (headers res) (JStr data)))
        (Some err)
    | inr payload =>
      let response := mkIncomingMessage (statusCode res) (headers res) payload in
      if status_ok (status_of (statusCode res)) then
        TryReturn (if truthy (get "resolveWithFullResponse" options)
                   then FullResponse response else BodyOnly payload)
      else TryPassed (status_of (statusCode res)) (Some response) None
    end.
Proof. reflexivity. Qed.

Lemma details_of_response_error (payload : JsVal) (d : Details) :
  details (newApifyClientErrorFromResponse serialize payload isApiV1 d) = d.
Proof.
  unfold newApifyClientErrorFromResponse.
  destruct (nested_error payload) as [[t m]|]; reflexivity.
Qed.

Lemma passed_state_counts (st : CallState) (sc : Status) :
  iteration (passed_state st sc) = S (iteration st)
  ∧ requests (stats (passed_state st sc)) = requests (stats st) + 1
  ∧ calls (stats (passed_state st sc)) = calls (stats st).
Proof.
  unfold passed_state. destruct sc as [| |n]; simpl; auto.
  destruct (Z.eqb n RATE_LIMIT_EXCEEDED_STATUS_CODE); simpl; auto.
Qed.

(** C1.  An attempt whose response has a status [s] in [300, 500) that is
    not among the retryable statuses throws the error built from the
    response body, with the status, the url and the method as details; the
    error is not a [RetryableError], so the driver fails the call with it
    however many retries remain, after exactly this one request. *)
Theorem terminal_status_fails_at_once (st : CallState) (res : IncomingMessage)
    (data : string) (s : Z) :
  transport (S (iteration st)) = AxiosResolved (Some res) data →
  statusCode res = Some s → 300 ≤ s < 500 → includes_num codes s = false →
  let payload :=
    match decode JSON_parse options data with
    | inr parsed => parsed
    | inl _ => JStr data
    end in
  let err :=
    newApifyClientErrorFromResponse serialize payload isApiV1
      (ResponseDetails (StNum s) (get "url" options) (get "method" options)) in
  let st' := passed_state st (StNum s) in
  attempt st = (Throw (ThrowClientError err), st')
  ∧ details err
    = ResponseDetails (StNum s) (get "url" options) (get "method" options)
  ∧ (∀ retries, backoff_loop retries attempt st = (Rejected (ClientError err), st'))
  ∧ iteration st' = S (iteration st)
  ∧ requests (stats st') = requests (stats st) + 1.
Proof.
  intros Htr Hs Hrange Hcodes payload err st'.
  assert (Hterm : terminal_status codes (StNum s) = true).
  { unfold terminal_status. rewrite Hcodes.
    destruct (Z.leb_spec 300 s); [|lia]. destruct (Z.ltb_spec s 500); [|lia].
    reflexivity. }
  assert (Hok : status_ok (StNum s) = false).
  { unfold status_ok. destruct (Z.eqb_spec s 0); [lia|].
    destruct (Z.ltb_spec s 300); [lia|]. reflexivity. }
  assert (Hattempt : attempt st = (Throw (ThrowClientError err), st')).
  { pose proof (try_block_response res data) as Htry.
    rewrite Hs in Htry. cbn [status_of] in Htry. rewrite Hok in Htry.
    subst err payload.
    destruct (decode JSON_parse options data) as [perr|parsed] eqn:Hdec.
    - apply (makeRequest_terminal st (StNum s)
               (mkIncomingMessage (Some s) (headers res) (JStr data)) (Some perr));
        [now rewrite Htr|exact Hterm].
    - apply (makeRequest_terminal st (StNum s)
               (mkIncomingMessage (Some s) (headers res) parsed) None);
        [now rewrite Htr|exact Hterm]. }
  split; [exact Hattempt|].
  split; [apply details_of_response_error|].
  split.
  - intros [|retries]; simpl; now rewrite Hattempt.
  - destruct (passed_state_counts st (StNum s)) as (Hi & Hr & _). auto.
Qed.

(** C4.  An attempt whose response has status 429 leaves the slot of its
    ordinal in [rateLimitErrors] at one more than the number it held, and at
    1 when it held no number; the other slots are untouched.  This holds for
    every set of retryable statuses, and when 429 is not among them the
    attempt is terminal all the same. *)
Theorem rate_limit_counted_per_ordinal (st : CallState) (res : IncomingMessage)
    (data : string) :
  transport (S (iteration st)) = AxiosResolved (Some res) data →
  statusCode res = Some RATE_LIMIT_EXCEEDED_STATUS_CODE →
  let ordinal := S (iteration st) in
  let before := rateLimitErrors (stats st) in
  let after := rateLimitErrors (stats (snd (attempt st))) in
  after !! (ordinal - 1)%nat
  = Some (JNum (match before !! (ordinal - 1)%nat with
                | Some (JNum n) => n + 1
                | _ => 1
                end))
  ∧ (∀ i, i ≠ (ordinal - 1)%nat → after !! i = before !! i)
  ∧ (includes_num codes RATE_LIMIT_EXCEEDED_STATUS_CODE = false →
     ∃ e, fst (attempt st) = Throw (ThrowClientError e)).
Proof.
  intros Htr Hs ordinal before after.
  pose proof (try_block_response res data) as Htry.
  rewrite Hs in Htry. cbn [status_of] in Htry.
  change (status_ok (StNum RATE_LIMIT_EXCEEDED_STATUS_CODE)) with false in Htry.
  rewrite <- Htr in Htry.
  assert (Hst : ∃ response error,
             try_block JSON_parse options (transport (S (iteration st)))
             = TryPassed (StNum RATE_LIMIT_EXCEEDED_STATUS_CODE) (Some response) error).
  { destruct (decode JSON_parse options data); eauto. }
  destruct Hst as (response & error & Hpassed).
  assert (Hsnd : snd (attempt st)
                 = passed_state st (StNum RATE_LIMIT_EXCEEDED_STATUS_CODE)).
  { destruct (terminal_status codes (StNum RATE_LIMIT_EXCEEDED_STATUS_CODE)) eqn:Hterm.
    - now rewrite (makeRequest_terminal st _ response error Hpassed Hterm).
    - now rewrite (makeRequest_retryable st _ (Some response) error Hpassed Hterm). }
  subst after. rewrite Hsnd. unfold passed_state. cbn [stats Z.eqb].
  change (Z.eqb RATE_LIMIT_EXCEEDED_STATUS_CODE RATE_LIMIT_EXCEEDED_STATUS_CODE)
    with true. cbv iota.
  unfold count_rate_limit, count_request. cbn [rateLimitErrors].
  fold ordinal. fold before.
  split; [|split].
  - destruct (before !! (ordinal - 1)%nat) as [[| | |n| | |]|];
      now rewrite lookup_insert_eq.
  - intros i Hi.
    destruct (before !! (ordinal - 1)%nat) as [[| | |n| | |]|];
      now rewrite lookup_insert_ne.
  - intros Hcodes.
    assert (Hterm : terminal_status codes (StNum RATE_LIMIT_EXCEEDED_STATUS_CODE) = true)
      by (unfold terminal_status; now rewrite Hcodes).
    rewrite (makeRequest_terminal st _ response error Hpassed Hterm). eauto.
Qed.

(** C2, as the code has it.  With the json flag set and a non-empty body
    that [JSON.parse] rejects, the attempt never returns, whatever the
    status.  Unless the status is terminal (in [300, 500) and not
    retryable) it throws the [RetryableError] around a request-failed
    error, so that the driver goes on to the next attempt while retries
    remain and fails the call with that error when none does.  When the
    status is terminal it throws the error built from the unparsed body,
    and the driver fails the call with it at once. *)
Theorem unparsable_body_is_no_success (st : CallState) (res : IncomingMessage)
    (data : string) (perr : JsError) :
  transport (S (iteration st)) = AxiosResolved (Some res) data →
  truthy (get "json" options) = true → data ≠ "" → JSON_parse data = inl perr →
  let sc := status_of (statusCode res) in
  let st' := passed_state st sc in
  let e := request_failed_error options isApiV1 (S (iteration st)) sc (Some perr) in
  let built :=
    newApifyClientErrorFromResponse serialize (JStr data) isApiV1
      (ResponseDetails sc (get "url" options) (get "method" options)) in
  (∀ v, fst (attempt st) ≠ Return v)
  ∧ (terminal_status codes sc = false →
     attempt st = (Throw (ThrowRetryableError e), st')
     ∧ type e = (if truthy isApiV1 then REQUEST_FAILED_ERROR_TYPE_V1
                 else REQUEST_FAILED_ERROR_TYPE_V2)
     ∧ backoff_loop 0 attempt st = (Rejected (ClientError e), st')
     ∧ ∀ retries,
         backoff_loop (S retries) attempt st = backoff_loop retries attempt st')
  ∧ (terminal_status codes sc = true →
     attempt st = (Throw (ThrowClientError built), st')
     ∧ ∀ retries,
         backoff_loop retries attempt st = (Rejected (ClientError built), st')).
Proof.
  intros Htr Hjson Hdata Hparse sc st' e built.
  assert (Hdec : decode JSON_parse options data = inl perr).
  { unfold decode. rewrite Hjson. cbn [truthy andb].
    apply String.eqb_neq in Hdata. now rewrite Hdata. }
  pose proof (try_block_response res data) as Htry.
  rewrite Hdec, <- Htr in Htry. fold sc in Htry.
  split; [|split].
  - intros v.
    destruct (terminal_status codes sc) eqn:Hterm.
    + now rewrite (makeRequest_terminal st _ _ _ Htry Hterm).
    + now rewrite (makeRequest_retryable st _ _ _ Htry Hterm).
  - intros Hterm.
    pose proof (makeRequest_retryable st _ _ _ Htry Hterm) as Hattempt.
    fold e st' in Hattempt.
    repeat split.
    + exact Hattempt.
    + simpl. now rewrite Hattempt.
    + intros retries. simpl. now rewrite Hattempt.
  - intros Hterm.
    pose proof (makeRequest_terminal st _ _ _ Htry Hterm) as Hattempt.
    cbn [body] in Hattempt. fold built st' in Hattempt.
    split; [exact Hattempt|].
    intros [|retries]; simpl; now rewrite Hattempt.
Qed.





(** C9.  When the merged options fail validation, the call is rejected with
    the error of the normaliser and the statistics object is returned as it
    was, whatever the transport would have answered. *)
Theorem invalid_options_touch_no_counter (defaultOptions callOptions : Options)
    (stats0 : Stats) (e : ApifyClientError) :
  _validateAndNormalizeOptions (spread defaultOptions callOptions) = inl e →
  call JSON_parse serialize defaultOptions callOptions transport stats0
  = Some (Rejected (ClientError e), stats0).
Proof. intros Hinvalid. unfold call. now rewrite Hinvalid. Qed.

End RequestFacts.

(** ** The theorems at sample inputs *)

Lemma terminal_status_fails_at_once_witness :
  let attempt :=
    makeRequest JSON_parse_sample serialize_sample sample_options JUndefined
      [JNum 429] (respond (Some 404) "{}") in
  let err :=
    mkApifyClientError REQUEST_FAILED_ERROR_TYPE_V2 "Unexpected error: {}"
      (ResponseDetails (StNum 404) (JStr "/v2/acts") (JStr "pAtCh")) in
  attempt (mkCallState sample_stats 0)
  = (Throw (ThrowClientError err), mkCallState (mkStats 0 1 ∅) 1)
  ∧ backoff_loop 7 attempt (mkCallState sample_stats 0)
    = (Rejected (ClientError err), mkCallState (mkStats 0 1 ∅) 1).
Proof.
  pose proof (terminal_status_fails_at_once JSON_parse_sample serialize_sample
                sample_options JUndefined [JNum 429] (respond (Some 404) "{}")
                (mkCallState sample_stats 0)
                (mkIncomingMessage (Some 404) JNull JUndefined) "{}" 404
                eq_refl eq_refl ltac:(lia) eq_refl) as H.
  cbv zeta in H. destruct H as (H1 & _ & H3 & _).
  split; [exact H1|exact (H3 7%nat)].
Defined.

Lemma rate_limit_counted_per_ordinal_witness :
  let attempt :=
    makeRequest JSON_parse_sample serialize_sample sample_options JUndefined
      [] (respond (Some 429) "{}") in
  rateLimitErrors (stats (snd (attempt (mkCallState sample_stats 0)))) !! 0%nat
  = Some (JNum 1)
  ∧ ∃ e, fst (attempt (mkCallState sample_stats 0)) = Throw (ThrowClientError e).
Proof.
  pose proof (rate_limit_counted_per_ordinal JSON_parse_sample serialize_sample
                sample_options JUndefined [] (respond (Some 429) "{}")
                (mkCallState sample_stats 0)
                (mkIncomingMessage (Some 429) JNull JUndefined) "{}"
                eq_refl eq_refl) as H.
  cbv zeta in H. destruct H as (H1 & _ & H3).
  split; [exact H1|exact (H3 eq_refl)].
Defined.

Lemma unparsable_body_is_no_success_witness :
  makeRequest JSON_parse_sample serialize_sample sample_options JUndefined
    [JNum 429] (respond (Some 200) "{") (mkCallState sample_stats 0)
  = (Throw (ThrowRetryableError
              (mkApifyClientError REQUEST_FAILED_ERROR_TYPE_V2
                 "API request failed on the first try"
                 (FailureDetails (JStr "/v2/acts") (JStr "pAtCh") JUndefined false
                    (EntryMessage "Unexpected end of JSON input") (StNum 200) 1))),
     mkCallState (mkStats 0 1 ∅) 1)
  ∧ backoff_loop 7
      (makeRequest JSON_parse_sample serialize_sample sample_options JUndefined
         [JNum 429] (respond (Some 404) "{")) (mkCallState sample_stats 0)
    = (Rejected
         (ClientError
            (mkApifyClientError REQUEST_FAILED_ERROR_TYPE_V2 "Unexpected error: {"
               (ResponseDetails (StNum 404) (JStr "/v2/acts") (JStr "pAtCh")))),
       mkCallState (mkStats 0 1 ∅) 1).
Proof.
  split.
  - pose proof (unparsable_body_is_no_success JSON_parse_sample serialize_sample
                  sample_options JUndefined [JNum 429] (respond (Some 200) "{")
                  (mkCallState sample_stats 0)
                  (mkIncomingMessage (Some 200) JNull JUndefined) "{"
                  (mkJsError "SyntaxError" "Unexpected end of JSON input")
                  eq_refl eq_refl ltac:(discriminate) eq_refl) as H.
    cbv zeta in H. destruct H as (_ & H2 & _).
    exact (proj1 (H2 eq_refl)).
  - pose proof (unparsable_body_is_no_success JSON_parse_sample serialize_sample
                  sample_options JUndefined [JNum 429] (respond (Some 404) "{")
                  (mkCallState sample_stats 0)
                  (mkIncomingMessage (Some 404) JNull JUndefined) "{"
                  (mkJsError "SyntaxError" "Unexpected end of JSON input")
                  eq_refl eq_refl ltac:(discriminate) eq_refl) as H.
    cbv zeta in H. destruct H as (_ & _ & H3).
    exact (proj2 (H3 eq_refl) 7%nat).
Defined.

(** C2 as stated fails: with the json flag set, a 404 whose body does not
    parse is terminal; under the default ceiling of 8 attempts the call is
    rejected after a single request with the error built from the body. *)
Lemma unparsable_404_is_terminal :
  truthy (get "json" sample_options) = true
  ∧ JSON_parse_sample "{"
    = inl (mkJsError "SyntaxError" "Unexpected end of JSON input")
  ∧ retryable_attempt JSON_parse_sample sample_options [JNum 429]
      (respond (Some 404) "{" 1%nat) = false
  ∧ call JSON_parse_sample serialize_sample ∅ sample_options
      (respond (Some 404) "{") sample_stats
    = Some (Rejected
              (ClientError
                 (mkApifyClientError REQUEST_FAILED_ERROR_TYPE_V2
                    "Unexpected error: {"
                    (ResponseDetails (StNum 404) (JStr "/v2/acts") (JStr "PATCH")))),
            mkStats 1 1 ∅).
Proof. repeat split. Qed.



Lemma invalid_options_touch_no_counter_witness :
  call JSON_parse_sample serialize_sample ∅ missing_token_options
    (respond (Some 200) "{}") sample_stats
  = Some (Rejected
            (ClientError
               (mkApifyClientError INVALID_PARAMETER_ERROR_TYPE_V2
                  token_required_message NoDetails)),
          sample_stats).
Proof.
  apply (invalid_options_touch_no_counter JSON_parse_sample serialize_sample
           (respond (Some 200) "{}") ∅ missing_token_options sample_stats).
  reflexivity.
Defined.

(** The run of the spec's example: 429 on each of three attempts. *)
Example rate_limited_three_times :
  call JSON_parse_sample serialize_sample ∅
    (<["expBackoffMaxRepeats" := JNum 3]> sample_options)
    (respond (Some 429) "{}") sample_stats
  = Some (Rejected
            (ClientError
               (mkApifyClientError REQUEST_FAILED_ERROR_TYPE_V2
                  "API request failed on retry number 2"
                  (FailureDetails (JStr "/v2/acts") (JStr "PATCH") JUndefined false
                     EntryUndefined (StNum 429) 3))),
          mkStats 1 3 (<[0%nat := JNum 1]> (<[1%nat := JNum 1]> (<[2%nat := JNum 1]> ∅)))).
Proof. reflexivity. Qed.

(** ** More on the normaliser *)

(** The normaliser accepts a bag exactly when the base URL is a string, the
    method is a string whose upper-case form is allowed, and the token is a
    string whenever the credential is required. *)
Theorem normalize_accepts_iff (options : Options) :
  (∃ o, _validateAndNormalizeOptions options = inr o)
  ↔ ∃ b m, get "baseUrl" options = JStr b ∧ get "method" options = JStr m
      ∧ toUpperCase m ∈ ALLOWED_HTTP_METHODS
      ∧ (truthy (get "authRequired" options) = false
         ∨ typeof (get "token" options) = "string").
Proof.
  split.
  - intros [o Ho].
    destruct (normalize_inr_inv _ _ Ho) as (b & m & Hb & Hm & Hinc & Htok & _).
    exists b, m. apply includes_str_elem in Hinc. auto.
  - intros (b & m & Hb & Hm & Hinc & Htok).
    exists (normalized options b m).
    apply normalize_accepted; auto. now apply includes_str_elem.
Qed.

(** What a rejected bag looks like. *)
Lemma normalize_inl_inv (options : Options) (e : ApifyClientError) :
  _validateAndNormalizeOptions options = inl e →
  (typeof (get "baseUrl" options) ≠ "string"
   ∧ e = mkApifyClientError (selected_invalid_parameter_tag options)
           base_url_required_message NoDetails)
  ∨ (typeof (get "baseUrl" options) = "string"
     ∧ typeof (get "method" options) ≠ "string"
     ∧ e = mkApifyClientError (selected_invalid_parameter_tag options)
             method_required_message NoDetails)
  ∨ (∃ m, typeof (get "baseUrl" options) = "string"
       ∧ get "method" options = JStr m
       ∧ (toUpperCase m ∉ ALLOWED_HTTP_METHODS)
       ∧ e = mkApifyClientError INVALID_PARAMETER_ERROR_TYPE_V2
               (invalid_method_message m) NoDetails)
  ∨ (∃ m, typeof (get "baseUrl" options) = "string"
       ∧ get "method" options = JStr m
       ∧ toUpperCase m ∈ ALLOWED_HTTP_METHODS
       ∧ truthy (get "authRequired" options) = true
       ∧ typeof (get "token" options) ≠ "string"
       ∧ e = mkApifyClientError (selected_invalid_parameter_tag options)
               token_required_message NoDetails).
Proof.
  unfold _validateAndNormalizeOptions, selected_invalid_parameter_tag.
  destruct (get "baseUrl" options) as [| | | |b| |] eqn:Hb;
    try (intros [= <-]; left; split; [discriminate|reflexivity]).
  destruct (get "method" options) as [| | | |m| |] eqn:Hm;
    try (intros [= <-]; right; left; repeat split; discriminate).
  cbv zeta.
  destruct (includes_str ALLOWED_HTTP_METHODS (toUpperCase m)) eqn:Hinc; cbn [negb].
  - destruct (truthy (get "authRequired" options)) eqn:Hauth; cbn [andb];
      [|discriminate].
    destruct (String.eqb (typeof (get "token" options)) "string") eqn:Htok;
      cbn [negb]; [discriminate|].
    intros [= <-]. apply String.eqb_neq in Htok. apply includes_str_elem in Hinc.
    right. right. right. exists m. repeat split; auto.
  - intros [= <-]. right. right. left. exists m.
    repeat split; auto.
    intros Hin. apply includes_str_elem in Hin. congruence.
Qed.

(** Every error of the normaliser is an invalid-parameter error without
    details; its tag is the one that [isApiV1] selects, except for the error
    about a method outside the allowed set, which carries the v2 tag. *)
Theorem normalize_errors_are_invalid_parameter (options : Options)
    (e : ApifyClientError) :
  _validateAndNormalizeOptions options = inl e →
  is_invalid_parameter (type e)
  ∧ details e = NoDetails
  ∧ (type e = selected_invalid_parameter_tag options
     ∨ ∃ m, get "method" options = JStr m
         ∧ (toUpperCase m ∉ ALLOWED_HTTP_METHODS)
         ∧ e = mkApifyClientError INVALID_PARAMETER_ERROR_TYPE_V2
                 (invalid_method_message m) NoDetails).
Proof.
  intros He.
  assert (Hsel : is_invalid_parameter (selected_invalid_parameter_tag options)).
  { unfold is_invalid_parameter, selected_invalid_parameter_tag.
    destruct (truthy (get "isApiV1" options)); auto. }
  destruct (normalize_inl_inv options e He)
    as [[_ ->]|[(_ & _ & ->)|[(m & _ & Hm & Hout & ->)|(m & _ & _ & _ & _ & _ & ->)]]];
    cbn [type details]; repeat split; auto.
  - right. auto.
  - right. exists m. auto.
Qed.

Lemma normalize_errors_are_invalid_parameter_witness :
  is_invalid_parameter INVALID_PARAMETER_ERROR_TYPE_V2
  ∧ NoDetails = NoDetails
  ∧ (INVALID_PARAMETER_ERROR_TYPE_V2
     = selected_invalid_parameter_tag missing_token_options
     ∨ ∃ m, get "method" missing_token_options = JStr m
         ∧ (toUpperCase m ∉ ALLOWED_HTTP_METHODS)
         ∧ mkApifyClientError INVALID_PARAMETER_ERROR_TYPE_V2
             token_required_message NoDetails
           = mkApifyClientError INVALID_PARAMETER_ERROR_TYPE_V2
               (invalid_method_message m) NoDetails).
Proof.
  exact (normalize_errors_are_invalid_parameter missing_token_options
           (mkApifyClientError INVALID_PARAMETER_ERROR_TYPE_V2
              token_required_message NoDetails) eq_refl).
Defined.

(** In an accepted bag the base URL is a string, the method is one of the
    allowed methods, and none of the three retry knobs is undefined. *)
Theorem normalized_is_well_formed (options o : Options) :
  _validateAndNormalizeOptions options = inr o →
  (∃ b, get "baseUrl" o = JStr b)
  ∧ (∃ M, M ∈ ALLOWED_HTTP_METHODS ∧ get "method" o = JStr M)
  ∧ ∀ k, k ∈ retry_knobs → get k o ≠ JUndefined.
Proof.
  intros Ho.
  destruct (normalize_inr_inv _ _ Ho) as (b & m & Hb & Hm & Hinc & Htok & ->).
  destruct (normalized_lookups options b m) as (H1 & H2 & H3 & H4 & H5).
  split; [|split].
  - exists (strip_slash b). unfold get. now rewrite H1.
  - exists (toUpperCase m). split; [now apply includes_str_elem|].
    unfold get. now rewrite H2.
  - intros k Hk. unfold retry_knobs in Hk.
    apply elem_of_cons in Hk as [->|Hk]; [|apply elem_of_cons in Hk as [->|Hk]];
      [| |apply list_elem_of_singleton in Hk as ->];
      unfold get; rewrite ?H3, ?H4, ?H5; cbn [default];
      apply get_or_defined; discriminate.
Qed.

Lemma normalized_is_well_formed_witness :
  let o := normalized sample_options "https://api.apify.com" "pAtCh" in
  (∃ b, get "baseUrl" o = JStr b)
  ∧ (∃ M, M ∈ ALLOWED_HTTP_METHODS ∧ get "method" o = JStr M)
  ∧ ∀ k, k ∈ retry_knobs → get k o ≠ JUndefined.
Proof.
  exact (normalized_is_well_formed sample_options _ eq_refl).
Defined.

(** The normaliser writes nothing but the base URL, the method and the
    retry knobs that are undefined: every other property of the bag, and
    every retry knob that the caller set (to whatever value, the knobs are
    not checked), is in the result as it was given. *)
Theorem normalize_keeps_other_properties (options o : Options) (k : string) :
  _validateAndNormalizeOptions options = inr o →
  k ≠ "baseUrl" → k ≠ "method" →
  k ∉ retry_knobs ∨ get k options ≠ JUndefined →
  o !! k = options !! k.
Proof.
  intros Ho Hk1 Hk2 Hk.
  destruct (normalize_inr_inv _ _ Ho) as (b & m & _ & _ & _ & _ & ->).
  destruct (normalized_lookups options b m) as (_ & _ & H3 & H4 & H5).
  assert (Hset : ∀ d, get k options ≠ JUndefined →
                      Some (get_or k d options) = options !! k).
  { intros d Hdef. unfold get_or, get in *.
    destruct (options !! k) as [v|]; simpl in *; [|congruence].
    destruct v; congruence. }
  destruct (decide (k ∈ retry_knobs)) as [Hin|Hout].
  - destruct Hk as [Hk|Hk]; [contradiction|].
    unfold retry_knobs in Hin.
    apply elem_of_cons in Hin as [->|Hin]; [|apply elem_of_cons in Hin as [->|Hin]];
      [| |apply list_elem_of_singleton in Hin as ->];
      rewrite ?H3, ?H4, ?H5; now apply Hset.
  - unfold normalized, retry_knobs in *.
    rewrite !lookup_insert_ne; [reflexivity|..]; try congruence;
      intros <-; apply Hout; repeat constructor.
Qed.

Lemma normalize_keeps_other_properties_witness :
  normalized odd_knob_options "https://api.apify.com" "post"
    !! "expBackoffMaxRepeats"
  = Some (JStr "many")
  ∧ normalized odd_knob_options "https://api.apify.com" "post" !! "token"
    = Some (JNum 7).
Proof.
  split.
  - apply (normalize_keeps_other_properties odd_knob_options _
             "expBackoffMaxRepeats" eq_refl);
      [discriminate|discriminate|right; discriminate].
  - apply (normalize_keeps_other_properties odd_knob_options _ "token" eq_refl);
      [discriminate|discriminate|].
    left. rewrite <- includes_str_elem. vm_compute. discriminate.
Defined.

(** A retry knob that is absent, or present with the value undefined, is
    filled in: 500 for the delay, 8 for the ceiling and the list of 429 for
    the retryable statuses.  The value [null] is not undefined and is
    kept. *)
Theorem normalize_fills_undefined_knobs (options o : Options) :
  _validateAndNormalizeOptions options = inr o →
  (get "expBackoffMillis" options = JUndefined →
   get "expBackoffMillis" o = JNum 500)
  ∧ (get "expBackoffMaxRepeats" options = JUndefined →
     get "expBackoffMaxRepeats" o = JNum 8)
  ∧ (get "retryOnStatusCodes" options = JUndefined →
     get "retryOnStatusCodes" o = JArr [JNum 429])
  ∧ (get "retryOnStatusCodes" options = JNull →
     get "retryOnStatusCodes" o = JNull).
Proof.
  intros Ho.
  destruct (normalize_inr_inv _ _ Ho) as (b & m & _ & _ & _ & _ & ->).
  destruct (normalized_lookups options b m) as (_ & _ & H3 & H4 & H5).
  unfold get at 2 4 6 8. rewrite H3, H4, H5. cbn [default]. unfold get_or.
  repeat split; intros ->; reflexivity.
Qed.

Lemma normalize_fills_undefined_knobs_witness :
  let o := normalized odd_knob_options "https://api.apify.com" "post" in
  get "expBackoffMillis" o = JNum 500 ∧ get "retryOnStatusCodes" o = JNull.
Proof.
  destruct (normalize_fills_undefined_knobs odd_knob_options _ eq_refl)
    as (H1 & _ & _ & H4).
  split; [exact (H1 eq_refl)|exact (H4 eq_refl)].
Defined.

Lemma substr_last_snoc (b : string) (c : ascii) :
  substr_last (b +:+ String c EmptyString) = String c EmptyString.
Proof.
  induction b as [|c' b IH]; [reflexivity|].
  destruct b as [|c'' b]; [reflexivity|]. exact IH.
Qed.

Lemma slice_init_snoc (b : string) (c : ascii) :
  slice_init (b +:+ String c EmptyString) = b.
Proof.
  induction b as [|c' b IH]; [reflexivity|].
  destruct b as [|c'' b]; [reflexivity|].
  change (String c' (slice_init (String c'' b +:+ String c EmptyString))
          = String c' (String c'' b)).
  now rewrite IH.
Qed.

(** A base URL written with one trailing slash is normalised to the base URL
    without it: the slash is removed and nothing else changes, also when
    what is left ends in a slash itself. *)
Theorem trailing_slash_is_removed (options o : Options) (b : string) :
  get "baseUrl" options = JStr (b +:+ "/") →
  _validateAndNormalizeOptions options = inr o →
  get "baseUrl" o = JStr b.
Proof.
  intros Hb Ho.
  destruct (normalize_inr_inv _ _ Ho) as (b0 & m & Hb0 & _ & _ & _ & ->).
  rewrite Hb in Hb0. injection Hb0 as <-.
  destruct (normalized_lookups options (b +:+ "/") m) as (H1 & _).
  unfold get. rewrite H1. cbn [default from_option id].
  unfold strip_slash. now rewrite substr_last_snoc, slice_init_snoc.
Qed.

Lemma trailing_slash_is_removed_witness :
  get "baseUrl"
    (normalized (slash_options "https://api.apify.com/")
       ("https://api.apify.com/" +:+ "/") "GET")
  = JStr "https://api.apify.com/".
Proof.
  exact (trailing_slash_is_removed (slash_options "https://api.apify.com/") _
           "https://api.apify.com/" eq_refl eq_refl).
Defined.

(** The result of the normaliser is always accepted by the normaliser, and
    a second pass changes at most the base URL, from which it removes one
    more trailing slash if there is one. *)
Theorem normalized_is_accepted_again (options o : Options) (b : string) :
  _validateAndNormalizeOptions options = inr o →
  get "baseUrl" options = JStr b →
  _validateAndNormalizeOptions o
  = inr (<["baseUrl" := JStr (strip_slash (strip_slash b))]> o).
Proof.
  intros Hnorm Hb.
  destruct (normalize_inr_inv _ _ Hnorm) as (b0 & m & Hb0 & Hm & Hinc & Htok & ->).
  rewrite Hb in Hb0. injection Hb0 as <-.
  destruct (normalized_lookups options b m) as (H1 & H2 & H3 & H4 & H5).
  set (o := normalized options b m) in *.
  rewrite (normalize_accepted o (strip_slash b) (toUpperCase m)).
  - f_equal. unfold normalized at 1. rewrite (includes_allowed_upper _ Hinc).
    set (o1 := <["baseUrl" := JStr (strip_slash (strip_slash b))]> o).
    assert (Hne : ∀ k v, k ≠ "baseUrl" → o !! k = Some v → o1 !! k = Some v).
    { intros k v Hk Hv. unfold o1. now rewrite lookup_insert_ne. }
    rewrite (insert_id o1 "method") by (apply Hne; [discriminate|exact H2]).
    rewrite (get_or_reread "expBackoffMillis" _ options o)
      by (discriminate || exact H3).
    rewrite (insert_id o1 "expBackoffMillis") by (apply Hne; [discriminate|exact H3]).
    rewrite (get_or_reread "expBackoffMaxRepeats" _ options o)
      by (discriminate || exact H4).
    rewrite (insert_id o1 "expBackoffMaxRepeats")
      by (apply Hne; [discriminate|exact H4]).
    rewrite (get_or_reread "retryOnStatusCodes" _ options o)
      by (discriminate || exact H5).
    now rewrite (insert_id o1 "retryOnStatusCodes")
      by (apply Hne; [discriminate|exact H5]).
  - unfold get. now rewrite H1.
  - unfold get. now rewrite H2.
  - now rewrite (includes_allowed_upper _ Hinc).
  - unfold o. rewrite !normalized_other by reflexivity. exact Htok.
Qed.

Lemma normalized_is_accepted_again_witness :
  let o := normalized double_slash_options "https://api.apify.com//" "GET" in
  _validateAndNormalizeOptions o
  = inr (<["baseUrl" := JStr "https://api.apify.com"]> o).
Proof.
  exact (normalized_is_accepted_again double_slash_options _
           "https://api.apify.com//" eq_refl eq_refl).
Defined.

(** ** More on one attempt *)

Section AttemptFacts.

Variable JSON_parse : string -> JsError + JsVal.
Variable serialize : JsVal -> string.

Variables (options : Options) (isApiV1 : JsVal) (codes : list JsVal).
Variable transport : Transport.

Local Abbreviation attempt :=
  (makeRequest JSON_parse serialize options isApiV1 codes transport).

(** When the request itself fails (axios rejects), the attempt ends in the
    [RetryableError] whatever the retryable statuses are: the details of the
    request-failed error hold an undefined status code and the message of
    the transport error (the error itself when its message is empty); one
    request is counted and no rate-limit counter is touched. *)
Theorem transport_failure_is_retryable (st : CallState) (err : JsError) :
  transport (S (iteration st)) = AxiosRejected err →
  let e :=
    request_failed_error options isApiV1 (S (iteration st)) StUndefined (Some err) in
  attempt st
  = (Throw (ThrowRetryableError e),
     mkCallState (count_request (stats st)) (S (iteration st)))
  ∧ details e
    = FailureDetails (get "url" options) (get "method" options)
        (get "params" options) (truthy (get "body" options))
        (if String.eqb (err_message err) "" then EntryError err
         else EntryMessage (err_message err))
        StUndefined (S (iteration st)).
Proof.
  intros Htr e. unfold makeRequest. rewrite Htr. cbn [try_block terminal_status].
  repeat split. unfold e, request_failed_error, error_entry. cbn [details].
  now destruct (String.eqb (err_message err) "").
Qed.

(** When axios resolves without a response object, the assignment of the
    body throws inside the [try]: the attempt ends in the [RetryableError],
    and the details of the request-failed error hold a null status code and
    the [TypeError] of the runtime as the caught error. *)
Theorem missing_response_is_retryable (st : CallState) (data : string) :
  transport (S (iteration st)) = AxiosResolved None data →
  ∃ cause,
    err_name cause = "TypeError"
    ∧ attempt st
      = (Throw (ThrowRetryableError
                  (mkApifyClientError
                     (if truthy isApiV1 then REQUEST_FAILED_ERROR_TYPE_V1
                      else REQUEST_FAILED_ERROR_TYPE_V2)
                     (if Nat.eqb (S (iteration st)) 1
                      then "API request failed on the first try"
                      else "API request failed on retry number "
                           +:+ string_of_nat (S (iteration st) - 1))
                     (FailureDetails (get "url" options) (get "method" options)
                        (get "params" options) (truthy (get "body" options))
                        (error_entry (Some cause)) StNull (S (iteration st))))),
         mkCallState (count_request (stats st)) (S (iteration st))).
Proof.
  intros Htr. exists TypeError_body. split; [reflexivity|].
  unfold makeRequest. now rewrite Htr.
Qed.

(** A response with a status of 500 or more, or with a status of 300 or
    more that is among the retryable statuses, ends the attempt in the
    [RetryableError]; the details of the request-failed error hold the
    status, and the message of the parse error when the body was to be
    parsed and did not parse. *)
Theorem retryable_status_is_retried (st : CallState) (res : IncomingMessage)
    (data : string) (s : Z) :
  transport (S (iteration st)) = AxiosResolved (Some res) data →
  statusCode res = Some s → (300 ≤ s)%Z →
  (500 ≤ s)%Z ∨ includes_num codes s = true →
  let cause :=
    match decode JSON_parse options data with
    | inl perr => Some perr
    | inr _ => None
    end in
  attempt st
  = (Throw (ThrowRetryableError
              (request_failed_error options isApiV1 (S (iteration st))
                 (StNum s) cause)),
     passed_state st (StNum s)).
Proof.
  intros Htr Hs Hge Hretry cause.
  assert (Hterm : terminal_status codes (StNum s) = false).
  { unfold terminal_status. destruct Hretry as [H500 | Hin].
    - destruct (Z.ltb_spec s 500); [lia|]. now rewrite andb_false_r.
    - rewrite Hin. apply andb_false_r. }
  assert (Hok : status_ok (StNum s) = false).
  { unfold status_ok. destruct (Z.eqb_spec s 0); [lia|].
    destruct (Z.ltb_spec s 300); [lia|]. reflexivity. }
  pose proof (try_block_response JSON_parse options res data) as Htry.
  rewrite Hs, <- Htr in Htry. cbn [status_of] in Htry. subst cause.
  destruct (decode JSON_parse options data) as [perr|payload];
    cbv zeta in Htry; rewrite ?Hok in Htry;
    exact (makeRequest_retryable JSON_parse serialize options isApiV1 codes
             transport st _ _ _ Htry Hterm).
Qed.

Lemma makeRequest_success (st : CallState) (res : IncomingMessage)
    (data : string) (s : Z) (payload : JsVal) :
  transport (S (iteration st)) = AxiosResolved (Some res) data →
  statusCode res = Some s → (s < 300)%Z →
  decode JSON_parse options data = inr payload →
  attempt st
  = (Return (if truthy (get "resolveWithFullResponse" options)
             then FullResponse (mkIncomingMessage (Some s) (headers res) payload)
             else BodyOnly payload),
     mkCallState (count_request (stats st)) (S (iteration st))).
Proof.
  intros Htr Hs Hlt Hdec.
  assert (Hok : status_ok (StNum s) = true).
  { unfold status_ok. destruct (Z.ltb_spec s 300); [|lia]. apply orb_true_r. }
  pose proof (try_block_response JSON_parse options res data) as Htry.
  rewrite Hs, Hdec, <- Htr in Htry. cbn [status_of] in Htry.
  cbv zeta in Htry. rewrite Hok in Htry.
  exact (makeRequest_returns JSON_parse serialize options isApiV1 codes
           transport st _ Htry).
Qed.

(** A response with a status below 300 whose body decodes makes the attempt
    return: the decoded body, or the response holding it when
    [resolveWithFullResponse] is set.  One request is counted and nothing
    else in the statistics changes. *)
Theorem success_returns_decoded_body (st : CallState) (res : IncomingMessage)
    (data : string) (s : Z) (payload : JsVal) :
  transport (S (iteration st)) = AxiosResolved (Some res) data →
  statusCode res = Some s → (s < 300)%Z →
  decode JSON_parse options data = inr payload →
  attempt st
  = (Return (if truthy (get "resolveWithFullResponse" options)
             then FullResponse (mkIncomingMessage (Some s) (headers res) payload)
             else BodyOnly payload),
     mkCallState
       (mkStats (calls (stats st)) (requests (stats st) + 1)
          (rateLimitErrors (stats st)))
       (S (iteration st))).
Proof. exact (makeRequest_success st res data s payload). Qed.

(** The parser is not consulted when the json flag is unset or the body is
    empty: such a response with a status below 300 resolves with the text as
    it came, the empty string included, whatever [JSON.parse] would do with
    it. *)
Theorem unparsed_body_is_returned_raw (st : CallState) (res : IncomingMessage)
    (data : string) (s : Z) :
  transport (S (iteration st)) = AxiosResolved (Some res) data →
  statusCode res = Some s → (s < 300)%Z →
  truthy (get "json" options) = false ∨ data = "" →
  truthy (get "resolveWithFullResponse" options) = false →
  fst (attempt st) = Return (BodyOnly (JStr data)).
Proof.
  intros Htr Hs Hlt Hraw Hfull.
  assert (Hdec : decode JSON_parse options data = inr (JStr data)).
  { unfold decode. destruct Hraw as [-> | ->]; [reflexivity|].
    cbn [truthy String.eqb negb]. now rewrite andb_false_r. }
  rewrite (makeRequest_success st res data s _ Htr Hs Hlt Hdec).
  now rewrite Hfull.
Qed.

Lemma try_block_status_has_response (outcome : AxiosOutcome) (n : Z)
    (response : option IncomingMessage) (error : option JsError) :
  try_block JSON_parse options outcome = TryPassed (StNum n) response error →
  is_Some response.
Proof.
  destruct outcome as [err|[res|] data]; cbn [try_block]; try discriminate.
  destruct (decode JSON_parse options data).
  - intros [= _ <- _]. eauto.
  - destruct (status_ok (status_of (statusCode res))); [discriminate|].
    intros [= _ <- _]. eauto.
Qed.

(** With a statistics object that has its array of counters and an array of
    retryable statuses, no attempt lets an error of the runtime escape:
    whatever the transport answers, an attempt returns, throws the error
    built from the response, or throws the [RetryableError].  In particular
    the body of the response is only read, for the terminal error, when
    there is a response. *)
Theorem attempt_never_throws_runtime_error (st : CallState) (e : JsError) :
  fst (attempt st) ≠ Throw (ThrowJsError e).
Proof.
  unfold makeRequest.
  destruct (try_block JSON_parse options (transport (S (iteration st))))
    as [v|sc response error] eqn:Htry; [discriminate|].
  destruct (terminal_status codes sc) eqn:Hterm; [|discriminate].
  destruct sc as [| |n]; try discriminate Hterm.
  destruct (try_block_status_has_response _ _ _ _ Htry) as [r ->].
  discriminate.
Qed.

Lemma makeRequest_passed_state (st : CallState) (sc : Status)
    (response : option IncomingMessage) (error : option JsError) :
  try_block JSON_parse options (transport (S (iteration st)))
  = TryPassed sc response error →
  snd (attempt st) = passed_state st sc.
Proof.
  intros Htry. unfold makeRequest. rewrite Htry.
  destruct (terminal_status codes sc); [|reflexivity].
  destruct response; reflexivity.
Qed.

(** Every attempt counts exactly one request, advances the ordinal by one
    and leaves the counter of calls alone; of the rate-limit counters it can
    change only the slot of its own ordinal, and it changes none unless the
    status is 429. *)
Theorem attempt_stats_frame (st : CallState) :
  let st' := snd (attempt st) in
  iteration st' = S (iteration st)
  ∧ requests (stats st') = requests (stats st) + 1
  ∧ calls (stats st') = calls (stats st)
  ∧ (∀ i, i ≠ iteration st →
          rateLimitErrors (stats st') !! i = rateLimitErrors (stats st) !! i)
  ∧ (attempt_status JSON_parse options (transport (S (iteration st)))
     ≠ StNum RATE_LIMIT_EXCEEDED_STATUS_CODE →
     rateLimitErrors (stats st') = rateLimitErrors (stats st)).
Proof.
  cbv zeta. unfold attempt_status.
  destruct (try_block JSON_parse options (transport (S (iteration st))))
    as [v|sc response error] eqn:Htry.
  - rewrite (makeRequest_returns JSON_parse serialize options isApiV1 codes
               transport st v Htry).
    cbn. repeat split; auto.
  - rewrite (makeRequest_passed_state st sc response error Htry).
    destruct (passed_state_counts st sc) as (Hi & Hr & Hc).
    repeat split; auto.
    + intros i Hi'. unfold passed_state. cbn [stats].
      destruct sc as [| |n]; try reflexivity.
      destruct (Z.eqb n RATE_LIMIT_EXCEEDED_STATUS_CODE); [|reflexivity].
      unfold count_rate_limit, count_request. cbn [rateLimitErrors].
      replace (S (iteration st) - 1)%nat with (iteration st) by lia.
      destruct (rateLimitErrors (stats st) !! iteration st) as [[| | |m| | |]|];
        now rewrite lookup_insert_ne.
    + intros Hsc. unfold passed_state. cbn [stats].
      destruct sc as [| |n]; try reflexivity.
      destruct (Z.eqb_spec n RATE_LIMIT_EXCEEDED_STATUS_CODE); [|reflexivity].
      subst n. contradiction.
Qed.

End AttemptFacts.

Lemma transport_failure_is_retryable_witness :
  makeRequest JSON_parse_sample serialize_sample plain_options JUndefined []
    (refuse (mkJsError "Error" "socket hang up")) (mkCallState sample_stats 0)
  = (Throw (ThrowRetryableError
              (mkApifyClientError REQUEST_FAILED_ERROR_TYPE_V2
                 "API request failed on the first try"
                 (FailureDetails (JStr "/v2/acts") (JStr "GET") JUndefined false
                    (EntryMessage "socket hang up") StUndefined 1))),
     mkCallState (mkStats 0 1 ∅) 1).
Proof.
  exact (proj1 (transport_failure_is_retryable JSON_parse_sample serialize_sample
                  plain_options JUndefined []
                  (refuse (mkJsError "Error" "socket hang up"))
                  (mkCallState sample_stats 0) _ eq_refl)).
Defined.

Lemma missing_response_is_retryable_witness :
  ∃ cause,
    err_name cause = "TypeError"
    ∧ makeRequest JSON_parse_sample serialize_sample plain_options JUndefined
        [JNum 429] (no_response "{}") (mkCallState sample_stats 0)
      = (Throw (ThrowRetryableError
                  (mkApifyClientError REQUEST_FAILED_ERROR_TYPE_V2
                     "API request failed on the first try"
                     (FailureDetails (JStr "/v2/acts") (JStr "GET") JUndefined
                        false (error_entry (Some cause)) StNull 1))),
         mkCallState (mkStats 0 1 ∅) 1).
Proof.
  exact (missing_response_is_retryable JSON_parse_sample serialize_sample
           plain_options JUndefined [JNum 429] (no_response "{}")
           (mkCallState sample_stats 0) "{}" eq_refl).
Defined.

Lemma retryable_status_is_retried_witness :
  makeRequest JSON_parse_sample serialize_sample sample_options JUndefined
    [JNum 429; JNum 404] (respond (Some 404) "{") (mkCallState sample_stats 0)
  = (Throw (ThrowRetryableError
              (mkApifyClientError REQUEST_FAILED_ERROR_TYPE_V2
                 "API request failed on the first try"
                 (FailureDetails (JStr "/v2/acts") (JStr "pAtCh") JUndefined false
                    (EntryMessage "Unexpected end of JSON input") (StNum 404) 1))),
     mkCallState (mkStats 0 1 ∅) 1).
Proof.
  exact (retryable_status_is_retried JSON_parse_sample serialize_sample
           sample_options JUndefined [JNum 429; JNum 404] (respond (Some 404) "{")
           (mkCallState sample_stats 0)
           (mkIncomingMessage (Some 404) JNull JUndefined) "{" 404
           eq_refl eq_refl ltac:(lia) (or_intror eq_refl)).
Defined.

Lemma success_returns_decoded_body_witness :
  makeRequest JSON_parse_sample serialize_sample sample_options JUndefined
    [JNum 429] (respond (Some 200) "[]") (mkCallState sample_stats 0)
  = (Return (BodyOnly (JArr [])), mkCallState (mkStats 0 1 ∅) 1).
Proof.
  exact (success_returns_decoded_body JSON_parse_sample serialize_sample
           sample_options JUndefined [JNum 429] (respond (Some 200) "[]")
           (mkCallState sample_stats 0)
           (mkIncomingMessage (Some 200) JNull JUndefined) "[]" 200 (JArr [])
           eq_refl eq_refl ltac:(lia) eq_refl).
Defined.

Lemma unparsed_body_is_returned_raw_witness :
  fst (makeRequest JSON_parse_sample serialize_sample sample_options JUndefined
         [JNum 429] (respond (Some 204) "") (mkCallState sample_stats 0))
  = Return (BodyOnly (JStr "")).
Proof.
  exact (unparsed_body_is_returned_raw JSON_parse_sample serialize_sample
           sample_options JUndefined [JNum 429] (respond (Some 204) "")
           (mkCallState sample_stats 0)
           (mkIncomingMessage (Some 204) JNull JUndefined) "" 204
           eq_refl eq_refl ltac:(lia) (or_intror eq_refl) eq_refl).
Defined.

(** ** The request configuration *)

Section ConfigFacts.

Variable CLIENT_USER_AGENT : string.
Variable CONTENT_TYPE_JSON : string.
Variable JSON_stringify : JsVal -> string.

Local Abbreviation config := (_getAxiosConfig CLIENT_USER_AGENT).

(** The query parameters are those of [qs] with the token of the options
    written over them: a token given in [qs] never reaches the request, and
    the parameter [token] is present even when the options have no token. *)
Theorem config_token_overrides_qs (options : Options) :
  config_params (config options) !! "token" = Some (get "token" options)
  ∧ ∀ k, k ≠ "token" →
         config_params (config options) !! k = own_props (get "qs" options) !! k.
Proof.
  unfold _getAxiosConfig. cbn [config_params]. split.
  - apply lookup_insert_eq.
  - intros k Hk. now apply lookup_insert_ne.
Qed.

(** The headers of the caller win over the two default headers, key by key
    and with the letter case of the key taken as it is; a default header
    stays exactly when the caller has no header under the same key. *)
Theorem config_headers_prefer_caller (options : Options) (k : string) :
  config_headers (config options) !! k
  = match own_props (get "headers" options) !! k with
    | Some v => Some v
    | None =>
      if String.eqb k "user-agent" then Some (JStr CLIENT_USER_AGENT)
      else if String.eqb k "accept-encoding" then Some (JStr "gzip")
      else None
    end.
Proof.
  unfold _getAxiosConfig. cbn [config_headers].
  rewrite lookup_union.
  destruct (own_props (get "headers" options) !! k) as [v|] eqn:Hk.
  - now rewrite union_Some_l.
  - rewrite (left_id None _).
    destruct (String.eqb_spec k "user-agent") as [->|Hua].
    + reflexivity.
    + destruct (String.eqb_spec k "accept-encoding") as [->|Hae].
      * reflexivity.
      * rewrite !lookup_insert_ne by congruence. apply lookup_empty.
Qed.

(** When the json flag is set and the data is truthy, [transformRequest]
    hands back the serialised data and sets the JSON content type under both
    spellings of the header, over whatever content type the headers held;
    every other header is untouched. *)
Theorem json_body_forces_content_type (options : Options) (data : JsVal)
    (headers : gmap string JsVal) :
  truthy (get "json" options) = true → truthy data = true →
  let sent := transformRequest CONTENT_TYPE_JSON JSON_stringify options data headers in
  fst sent = JStr (JSON_stringify data)
  ∧ snd sent !! "Content-Type" = Some (JStr (CONTENT_TYPE_JSON +:+ "; charset=utf-8"))
  ∧ snd sent !! "content-type" = Some (JStr (CONTENT_TYPE_JSON +:+ "; charset=utf-8"))
  ∧ ∀ k, k ≠ "Content-Type" → k ≠ "content-type" → snd sent !! k = headers !! k.
Proof.
  intros Hjson Hdata sent. subst sent. unfold transformRequest.
  rewrite Hjson, Hdata. cbn [andb fst snd].
  change (toLowerCase CONTENT_TYPE_HEADER_NAME) with "content-type".
  unfold CONTENT_TYPE_HEADER_NAME, CONTENT_TYPE_JSON_HEADER.
  repeat split.
  - rewrite lookup_insert_ne by discriminate. apply lookup_insert_eq.
  - apply lookup_insert_eq.
  - intros k Hk1 Hk2. now rewrite !lookup_insert_ne by congruence.
Qed.

(** The configuration of a normalised bag: the base URL loses its trailing
    slash before the base path is appended (a missing base path is appended
    as the text "undefined"), and the method is the upper-case one. *)
Theorem config_of_normalized (options o : Options) (b m : string) :
  _validateAndNormalizeOptions options = inr o →
  get "baseUrl" options = JStr b → get "method" options = JStr m →
  config_baseURL (config o)
  = strip_slash b +:+ template_of (get "basePath" options)
  ∧ config_method (config o) = JStr (toUpperCase m)
  ∧ config_params (config o) !! "token" = Some (get "token" options).
Proof.
  intros Ho Hb Hm.
  destruct (normalize_inr_inv _ _ Ho) as (b0 & m0 & Hb0 & Hm0 & _ & _ & ->).
  rewrite Hb in Hb0. rewrite Hm in Hm0.
  injection Hb0 as <-. injection Hm0 as <-.
  destruct (normalized_lookups options b m) as (H1 & H2 & _).
  unfold _getAxiosConfig.
  cbn [config_baseURL config_method config_params].
  rewrite lookup_insert_eq.
  rewrite (normalized_other options b m "basePath") by reflexivity.
  rewrite (normalized_other options b m "token") by reflexivity.
  assert (G1 : get "baseUrl" (normalized options b m) = JStr (strip_slash b))
    by (unfold get; now rewrite H1).
  assert (G2 : get "method" (normalized options b m) = JStr (toUpperCase m))
    by (unfold get; now rewrite H2).
  rewrite G1, G2. repeat split.
Qed.

End ConfigFacts.

Lemma json_body_forces_content_type_witness :
  let cfg := _getAxiosConfig "ApifyClient/0.0.0" config_options in
  let sent :=
    transformRequest "application/json" JSON_stringify_sample config_options
      (config_data cfg) (config_headers cfg) in
  fst sent = JStr "{...}"
  ∧ snd sent !! "Content-Type" = Some (JStr "application/json; charset=utf-8")
  ∧ snd sent !! "User-Agent" = Some (JStr "mine")
  ∧ snd sent !! "user-agent" = Some (JStr "ApifyClient/0.0.0").
Proof.
  destruct (json_body_forces_content_type "application/json" JSON_stringify_sample
              config_options
              (config_data (_getAxiosConfig "ApifyClient/0.0.0" config_options))
              (config_headers (_getAxiosConfig "ApifyClient/0.0.0" config_options))
              eq_refl eq_refl)
    as (H1 & H2 & _ & H4).
  split; [exact H1|]. split; [exact H2|]. split.
  - rewrite (H4 "User-Agent") by discriminate. reflexivity.
  - rewrite (H4 "user-agent") by discriminate. reflexivity.
Defined.

Lemma config_of_normalized_witness :
  let o := normalized config_options "https://api.apify.com/" "post" in
  config_baseURL (_getAxiosConfig "ApifyClient/0.0.0" o) = "https://api.apify.com/v2"
  ∧ config_method (_getAxiosConfig "ApifyClient/0.0.0" o) = JStr "POST"
  ∧ config_params (_getAxiosConfig "ApifyClient/0.0.0" o) !! "token"
    = Some (JStr "s3cr3t").
Proof.
  exact (config_of_normalized "ApifyClient/0.0.0" config_options _
           "https://api.apify.com/" "post" eq_refl eq_refl eq_refl).
Defined.

(** ** Merging the options of a call *)

Lemma spread_get (defaultOptions callOptions : Options) (k : string) :
  get k (spread defaultOptions callOptions)
  = match callOptions !! k with
    | Some v => v
    | None => get k defaultOptions
    end.
Proof.
  unfold get, spread. rewrite lookup_union.
  destruct (callOptions !! k) as [v|] eqn:Hk.
  - now rewrite union_Some_l.
  - now rewrite (left_id None _).
Qed.

Section CallFacts.

Variable JSON_parse : string -> JsError + JsVal.
Variable serialize : JsVal -> string.
Variable transport : Transport.

(** A property that the options of a call hold, even with the value
    undefined, hides the default of the client: a call whose options hold a
    base URL that is not a string is rejected with the base URL error, under
    the tag of the merged options, although the client has a default base
    URL; no request is made and nothing is counted. *)
Theorem call_options_hide_defaults (defaultOptions callOptions : Options)
    (v : JsVal) (stats0 : Stats) :
  callOptions !! "baseUrl" = Some v → typeof v ≠ "string" →
  call JSON_parse serialize defaultOptions callOptions transport stats0
  = Some (Rejected
            (ClientError
               (mkApifyClientError
                  (selected_invalid_parameter_tag
                     (spread defaultOptions callOptions))
                  base_url_required_message NoDetails)),
          stats0).
Proof.
  intros Hk Hv. unfold call.
  assert (Hget : get "baseUrl" (spread defaultOptions callOptions) = v)
    by (now rewrite spread_get, Hk).
  unfold _validateAndNormalizeOptions, selected_invalid_parameter_tag.
  rewrite Hget. destruct v; try reflexivity. now contradiction Hv.
Qed.

End CallFacts.

Lemma call_options_hide_defaults_witness :
  call JSON_parse_sample serialize_sample client_defaults masked_call_options
    (respond (Some 200) "{}") sample_stats
  = Some (Rejected
            (ClientError
               (mkApifyClientError INVALID_PARAMETER_ERROR_TYPE_V1
                  base_url_required_message NoDetails)),
          sample_stats).
Proof.
  exact (call_options_hide_defaults JSON_parse_sample serialize_sample
           (respond (Some 200) "{}") client_defaults masked_call_options
           JUndefined sample_stats eq_refl ltac:(discriminate)).
Defined.

(** ** The act methods *)

Lemma replace_first_absent (a b : ascii) (s : string) :
  count_char a s = O → replace_first a b s = s.
Proof.
  induction s as [|c s IH]; [reflexivity|].
  cbn [count_char replace_first]. destruct (Ascii.eqb c a); [discriminate|].
  intros Hs. now rewrite IH.
Qed.

Lemma replace_first_split (a b : ascii) (p r : string) :
  count_char a p = O →
  replace_first a b (p +:+ String a r) = p +:+ String b r.
Proof.
  induction p as [|c p IH]; intros Hp.
  - change (("" +:+ String a r)) with (String a r).
    change (("" +:+ String b r)) with (String b r).
    cbn [replace_first]. now rewrite Ascii.eqb_refl.
  - cbn [count_char] in Hp.
    change (String c p +:+ String a r) with (String c (p +:+ String a r)).
    change (String c p +:+ String b r) with (String c (p +:+ String b r)).
    cbn [replace_first].
    destruct (Ascii.eqb c a); [discriminate|]. now rewrite IH.
Qed.

(** Only the first slash of an act id is replaced by a tilde: the text
    before the first slash and the whole text after it, further slashes
    included, are kept; an id without a slash is unchanged. *)
Theorem replaceSlashWithTilde_first_only (p r : string) :
  count_char "/" p = O →
  Acts.replaceSlashWithTilde (p +:+ "/" +:+ r) = p +:+ "~" +:+ r
  ∧ Acts.replaceSlashWithTilde p = p.
Proof.
  intros Hp. unfold Acts.replaceSlashWithTilde. split.
  - exact (replace_first_split "/" "~" p r Hp).
  - exact (replace_first_absent "/" "~" p Hp).
Qed.

Lemma replaceSlashWithTilde_first_only_witness :
  Acts.replaceSlashWithTilde ("user" +:+ "/" +:+ "acts/my-act") = "user~acts/my-act"
  ∧ Acts.replaceSlashWithTilde "user" = "user".
Proof.
  exact (replaceSlashWithTilde_first_only "user" "acts/my-act" eq_refl).
Defined.

(** The replacement keeps the length of the id and removes exactly one
    slash when there is one, so that the result is free of slashes exactly
    when the id has at most one. *)
Theorem replaceSlashWithTilde_counts (s : string) :
  String.length (Acts.replaceSlashWithTilde s) = String.length s
  ∧ count_char "/" (Acts.replaceSlashWithTilde s) = (count_char "/" s - 1)%nat
  ∧ (count_char "/" (Acts.replaceSlashWithTilde s) = O
     ↔ (count_char "/" s ≤ 1)%nat).
Proof.
  unfold Acts.replaceSlashWithTilde.
  assert (H : String.length (replace_first "/" "~" s) = String.length s
              ∧ count_char "/" (replace_first "/" "~" s)
                = (count_char "/" s - 1)%nat).
  { induction s as [|c s [IH1 IH2]]; [split; reflexivity|].
    cbn [replace_first count_char String.length].
    destruct (Ascii.eqb c "/") eqn:Hc.
    - cbn [String.length count_char]. split; [reflexivity|].
      change (Ascii.eqb "~" "/") with false. cbv iota. lia.
    - cbn [String.length count_char]. rewrite Hc, IH1, IH2. cbv iota.
      split; lia. }
  destruct H as [H1 H2]. rewrite H2. repeat split; try assumption; lia.
Qed.

Section ActsFacts.

Variable checkParamOrThrow : JsVal -> string -> string -> option ApifyClientError.

(** The query of [listActs] always holds the token; it holds the limit and
    the offset only when they are truthy, so that a limit or an offset of 0
    is left out, and it holds [desc] as the number 1 when the flag is
    truthy. *)
Theorem listActs_query (options : Options) (request : Acts.Request) :
  Acts.listActs checkParamOrThrow options = inr request →
  let has (k : string) (v : JsVal) :=
    if truthy (get k options) then Some v else None in
  Acts.qs request !! "token" = Some (get "token" options)
  ∧ Acts.qs request !! "limit" = has "limit" (get "limit" options)
  ∧ Acts.qs request !! "offset" = has "offset" (get "offset" options)
  ∧ Acts.qs request !! "desc" = has "desc" (JNum 1)
  ∧ Acts.method request = "GET"
  ∧ Acts.url request = template_of (get "baseUrl" options) +:+ "/v2/acts".
Proof.
  unfold Acts.listActs.
  destruct (Acts.check_all _ _) as [e|]; [discriminate|].
  intros [= <-]. cbn [Acts.qs Acts.method Acts.url]. unfold Acts.list_query.
  destruct (truthy (get "limit" options)), (truthy (get "offset" options)),
    (truthy (get "desc" options)); repeat split; by simplify_map_eq.
Qed.

(** The request of [getAct] addresses the act under its escaped id: the act
    id is a string and the URL ends in the id with its first slash replaced
    by a tilde; the query holds the token as it is, unchecked. *)
Theorem getAct_request (options : Options) (request : Acts.Request) :
  Acts.getAct checkParamOrThrow options = inr request →
  ∃ actId, get "actId" options = JStr actId
    ∧ Acts.url request
      = template_of (get "baseUrl" options) +:+ "/v2/acts/"
        +:+ Acts.replaceSlashWithTilde actId
    ∧ Acts.method request = "GET"
    ∧ Acts.qs request = {["token" := get "token" options]}.
Proof.
  unfold Acts.getAct.
  destruct (Acts.check_all _ _) as [e|]; [discriminate|].
  destruct (get "actId" options) as [| | | |actId| |]; try discriminate.
  cbn [Acts.replaceSlashWithTilde_val]. intros [= <-]. exists actId.
  cbn [Acts.url Acts.method Acts.qs]. repeat split.
Qed.

(** When [updateAct] is given no act id, the id of the act object stands in
    for it: the URL ends in that id, escaped, and the body that is sent is
    the act object without its [id]. *)
Theorem updateAct_falls_back_to_act_id (options : Options)
    (request : Acts.Request) (fields : list (string * JsVal)) (ident : string) :
  Acts.updateAct checkParamOrThrow options = inr request →
  truthy (get "actId" options) = false →
  get "act" options = JObj fields →
  (list_to_map fields : gmap string JsVal) !! "id" = Some (JStr ident) →
  ident ≠ "" →
  Acts.url request
  = template_of (get "baseUrl" options) +:+ "/v2/acts/"
    +:+ Acts.replaceSlashWithTilde ident
  ∧ Acts.body request
    = JObj (filter (fun kv => negb (String.eqb (fst kv) "id")) fields)
  ∧ ∀ v, ("id", v) ∉ filter (fun kv => negb (String.eqb (fst kv) "id")) fields.
Proof.
  intros Hreq Hact Hobj Hid Hne. unfold Acts.updateAct in Hreq.
  rewrite Hact, Hobj in Hreq. cbn [negb Acts.get_id] in Hreq.
  rewrite Hid in Hreq. cbn [default from_option id truthy] in Hreq.
  apply String.eqb_neq in Hne. rewrite Hne in Hreq.
  cbn [negb Acts.replaceSlashWithTilde_val] in Hreq.
  match type of Hreq with
  | context [Acts.check_all ?f ?l] => destruct (Acts.check_all f l) as [e|]
  end; [discriminate|].
  injection Hreq as <-. cbn [Acts.url Acts.body Acts.omit Acts.own_fields].
  repeat split.
  intros v Hin. apply list_elem_of_filter in Hin as [Hk _].
  exact Hk.
Qed.

(** When [updateAct] is given neither an act id nor an act with an id, it
    throws a [TypeError] of the runtime before any parameter is checked:
    no invalid-parameter error is raised and no request is built, whatever
    the other options are. *)
Theorem updateAct_without_id_throws_type_error (options : Options) :
  typeof (get "actId" options) ≠ "string" →
  truthy (get "actId" options) = false →
  (∀ v, Acts.get_id (get "act" options) = inr v → truthy v = false) →
  ∃ err, Acts.updateAct checkParamOrThrow options
         = inl (HttpClient.OtherError err).
Proof.
  intros Hty Hfalsy Hid. unfold Acts.updateAct. rewrite Hfalsy. cbn [negb].
  destruct (Acts.get_id (get "act" options)) as [err|v] eqn:Hget; [eauto|].
  rewrite (Hid v eq_refl).
  destruct (get "actId" options); cbn [Acts.replaceSlashWithTilde_val]; eauto.
  now contradiction Hty.
Qed.

End ActsFacts.

Lemma listActs_query_witness :
  Acts.listActs checkParamOrThrow_sample list_options = inr list_request
  ∧ Acts.qs list_request !! "limit" = None
  ∧ Acts.qs list_request !! "offset" = Some (JNum 20)
  ∧ Acts.qs list_request !! "desc" = Some (JNum 1).
Proof.
  split; [reflexivity|].
  destruct (listActs_query checkParamOrThrow_sample list_options list_request
              eq_refl) as (_ & H2 & H3 & H4 & _).
  repeat split; assumption.
Defined.

Lemma getAct_request_witness :
  ∃ actId,
    get "actId" getAct_options = JStr actId
    ∧ Acts.url getAct_request_sample
      = template_of (get "baseUrl" getAct_options) +:+ "/v2/acts/"
        +:+ Acts.replaceSlashWithTilde actId
    ∧ Acts.method getAct_request_sample = "GET"
    ∧ Acts.qs getAct_request_sample = {["token" := get "token" getAct_options]}.
Proof.
  exact (getAct_request checkParamOrThrow_sample getAct_options
           getAct_request_sample eq_refl).
Defined.

Lemma updateAct_falls_back_to_act_id_witness :
  Acts.updateAct checkParamOrThrow_sample update_options = inr update_request
  ∧ Acts.url update_request = "https://api.apify.com/v2/acts/user~my-act"
  ∧ Acts.body update_request = JObj [("name", JStr "my-act")].
Proof.
  split; [reflexivity|].
  destruct (updateAct_falls_back_to_act_id checkParamOrThrow_sample update_options
              update_request
              [("id", JStr "user/my-act"); ("name", JStr "my-act")] "user/my-act"
              eq_refl eq_refl eq_refl eq_refl ltac:(discriminate))
    as (H1 & H2 & _).
  split; [exact H1|exact H2].
Defined.

Lemma updateAct_without_id_throws_type_error_witness :
  ∃ err, Acts.updateAct checkParamOrThrow_sample update_options_no_id
         = inl (HttpClient.OtherError err).
Proof.
  apply (updateAct_without_id_throws_type_error checkParamOrThrow_sample
           update_options_no_id).
  - discriminate.
  - reflexivity.
  - intros v [= <-]. reflexivity.
Defined.
